(** * RunFlash API: a shallow embedding of [main.py] and [schemas.py]

    The program is a FastAPI application over a MongoDB database.  Route
    handlers become functions on an explicit database handle, pydantic models
    become records with a validation function each, Python exceptions become
    the [Raise] branch of [outcome]. *)

From Stdlib Require Floats.PrimFloat Floats.FloatOps Floats.SpecFloat.
From Stdlib Require Import Ascii.
From stdpp Require Import base option list gmap strings.

Set Warnings "-register-all".
Local Open Scope string_scope.
Local Open Scope Z_scope.

(** ** Python values *)

(** Python's [float] is IEEE binary64, which is Rocq's primitive [float]. *)
Abbreviation float := PrimFloat.float.

(** A [datetime], as the number of microseconds since the epoch (UTC). *)
Definition datetime : Type := Z.

(** The values a JSON body or a stored BSON document holds.  A [str] is held
    as its UTF-8 text; a nested [dict] keeps its items in insertion order. *)
Inductive value : Type :=
| VNone
| VBool (b : bool)
| VInt (n : Z)
| VFloat (x : float)
| VStr (s : string)
| VDate (t : datetime)
| VObjectId (o : N)
| VList (items : list value)
| VDict (entries : list (string * value)).

(** A top-level [dict] with [str] keys: a JSON object, a stored document, the
    keyword arguments of a model. *)
Abbreviation document := (gmap string value).

(** [d.get(key)] and [d.get(key, default)]. *)
Definition get (d : document) (key : string) : value :=
  default VNone (d !! key).

Definition get_default (d : document) (key : string) (dflt : value) : value :=
  default dflt (d !! key).

(** ** Exceptions *)

(** An exception other than [HTTPException]: its class and [str(e)]. *)
Record pyerr : Type := PyErr { err_class : string; err_msg : string }.

(** What a handler may raise. *)
Inductive exn : Type :=
| HTTPException (status_code : Z) (detail : string)
| Unhandled (e : pyerr).

Inductive outcome (E A : Type) : Type :=
| Return (a : A)
| Raise (e : E).
Arguments Return {E A} a.
Arguments Raise {E A} e.

Definition bind {E A B} (m : outcome E A) (k : A -> outcome E B) : outcome E B :=
  match m with
  | Return a => k a
  | Raise e => Raise e
  end.

Notation "x <- m ;; k" := (bind m (fun x => k))
  (at level 100, m at next level, right associativity).

(** An exception raised by a call and not caught by the handler. *)
Definition propagate {A} (m : outcome pyerr A) : outcome exn A :=
  match m with
  | Return a => Return a
  | Raise e => Raise (Unhandled e)
  end.

(** Running [f] over a list, stopping at the first exception. *)
Fixpoint traverse {E A B} (f : A -> outcome E B) (l : list A) : outcome E (list B) :=
  match l with
  | [] => Return []
  | a :: l' => b <- f a ;; bs <- traverse f l' ;; Return (b :: bs)
  end.

Definition ValidationError (field : string) : pyerr :=
  PyErr "ValidationError" field.
Definition TypeError (msg : string) : pyerr := PyErr "TypeError" msg.
Definition ValueError (msg : string) : pyerr := PyErr "ValueError" msg.
Definition OverflowError (msg : string) : pyerr := PyErr "OverflowError" msg.
Definition KeyError (msg : string) : pyerr := PyErr "KeyError" msg.

(** ** The interpreter and the libraries

    What the program takes from CPython, pydantic and email-validator and
    this development leaves open: every statement below holds whatever these
    functions answer. *)
Class Runtime : Type := {
  (** [email_validator.validate_email]: the normalized address, or [None]
      for a malformed one. *)
  validate_email : string -> option string;
  (** [float(s)] and [int(s)] on a [str]. *)
  float_of_str : string -> option float;
  int_of_str : string -> option Z;
  (** pydantic's lax conversions of an input that is not already of the
      field's type. *)
  lax_float : value -> option float;
  lax_int : value -> option Z;
  lax_bool : value -> option bool;
  lax_datetime : value -> option datetime;
  (** [str(v)] for a value that is not [None], a [str] or an [ObjectId]. *)
  repr : value -> string;
  (** The detail FastAPI sends with a 422: the errors pydantic reports for
      the body, which name the failing fields and echo the input. *)
  validation_detail : document -> string;
}.

(** ** Builtins *)

(** Truthiness, as [or] tests it. *)
Definition truthy (v : value) : bool :=
  match v with
  | VNone => false
  | VBool b => b
  | VInt n => negb (n =? 0)
  | VFloat x => negb (PrimFloat.eqb x PrimFloat.zero)
  | VStr s => negb (String.eqb s "")
  | VDate _ => true
  | VObjectId _ => true
  | VList items => match items with [] => false | _ => true end
  | VDict entries => match entries with [] => false | _ => true end
  end.

(** [a or b]. *)
Definition py_or (a b : value) : value := if truthy a then a else b.

(** The characters of a [str].  In UTF-8 a character is a byte that is not
    of the form [10xxxxxx], followed by the bytes of that form that continue
    it. *)
Definition is_continuation (c : ascii) : bool :=
  match c with
  | Ascii _ _ _ _ _ _ false true => true
  | _ => false
  end.


(** [s[:n]]: the first [n] characters. *)
Fixpoint take_chars (n : nat) (s : string) : string :=
  match s with
  | EmptyString => EmptyString
  | String c rest =>
      if is_continuation c then String c (take_chars n rest)
      else
        match n with
        | O => EmptyString
        | S n' => String c (take_chars n' rest)
        end
  end.

(** [type(v).__name__], as error messages print it. *)
Definition type_name (v : value) : string :=
  match v with
  | VNone => "NoneType"
  | VBool _ => "bool"
  | VInt _ => "int"
  | VFloat _ => "float"
  | VStr _ => "str"
  | VDate _ => "datetime.datetime"
  | VObjectId _ => "ObjectId"
  | VList _ => "list"
  | VDict _ => "dict"
  end.

(** [v[0]]: the first element of a list, the first character of a [str]. *)
Definition subscript0 (v : value) : outcome pyerr value :=
  match v with
  | VList (x :: _) => Return x
  | VList [] => Raise (PyErr "IndexError" "list index out of range")
  | VStr "" => Raise (PyErr "IndexError" "string index out of range")
  | VStr s => Return (VStr (take_chars 1 s))
  | VDict _ => Raise (KeyError "0")
  | _ => Raise (TypeError ("'" +:+ type_name v +:+ "' object is not subscriptable"))
  end.

(** The 24 hexadecimal digits of an [ObjectId]. *)
Definition hex_digit (n : N) : ascii :=
  match n with
  | 0%N => "0" | 1%N => "1" | 2%N => "2" | 3%N => "3"
  | 4%N => "4" | 5%N => "5" | 6%N => "6" | 7%N => "7"
  | 8%N => "8" | 9%N => "9" | 10%N => "a" | 11%N => "b"
  | 12%N => "c" | 13%N => "d" | 14%N => "e" | _ => "f"
  end%char.

Fixpoint hex_fixed (width : nat) (n : N) (acc : string) : string :=
  match width with
  | O => acc
  | S w => hex_fixed w (n / 16)%N (String (hex_digit (n mod 16)%N) acc)
  end.

Definition oid_str (o : N) : string := hex_fixed 24 o "".

(** [float(n)] on an [int]: the nearest binary64, [OverflowError] beyond
    the range. *)
Definition float_of_int (n : Z) : outcome pyerr float :=
  match SpecFloat.binary_normalize FloatOps.prec FloatOps.emax n 0 false with
  | SpecFloat.S754_infinity _ => Raise (OverflowError "int too large to convert to float")
  | sf => Return (FloatOps.SF2Prim sf)
  end.

(** [int(x)] on a [float]: truncation towards zero. *)
Definition int_of_float (x : float) : outcome pyerr Z :=
  match FloatOps.Prim2SF x with
  | SpecFloat.S754_zero _ => Return 0
  | SpecFloat.S754_finite s m e =>
      let mag := if 0 <=? e then Z.pos m * 2 ^ e else Z.pos m / 2 ^ (- e) in
      Return (if s then - mag else mag)
  | SpecFloat.S754_infinity _ => Raise (OverflowError "cannot convert float infinity to integer")
  | SpecFloat.S754_nan => Raise (ValueError "cannot convert float NaN to integer")
  end.

(** ** Models

    One record per pydantic model; the module keeps the field names of the
    class. *)

Module EventCard.
Record t : Type := Build {
  id : string;
  title : string;
  subtitle : option string;
  banner_url : option string;
  start_at : datetime;
  end_at : datetime;
  status : string;
  categories : list string;
}.
End EventCard.

Module SubscribePayload.
Record t : Type := Build {
  email : string;
  first_name : option string;
  sale_event_id : option string;
  source : option string;
  accepted_marketing : bool;
}.
End SubscribePayload.

Module ProductCard.
Record t : Type := Build {
  id : string;
  title : string;
  price_original : float;
  price_sale : float;
  image : option string;
  stock : Z;
}.
End ProductCard.

Module Subscriber.
Record t : Type := Build {
  email : string;
  first_name : option string;
  sale_event_id : option string;
  source : option string;
  accepted_marketing : bool;
}.
End Subscriber.

Module SaleProduct.
Record t : Type := Build {
  sale_event_id : string;
  brand_id : option string;
  title : string;
  description : option string;
  images : list string;
  price_original : float;
  price_sale : float;
  stock : Z;
  sku : option string;
  attributes : option (list (string * value));
}.
End SaleProduct.

Module Reservation.
Record t : Type := Build {
  sale_event_id : string;
  product_id : string;
  email : string;
  quantity : Z;
  status : string;
}.
End Reservation.

(** Keyword arguments, and the [dict] a [model_dump] returns. *)
Definition kwargs (items : list (string * value)) : document :=
  list_to_map items.

Definition dump_optional_str (o : option string) : value :=
  match o with
  | Some s => VStr s
  | None => VNone
  end.

Definition dump_list_str (l : list string) : value := VList (VStr <$> l).

Section Program.
Context `{Runtime}.

(** [str(v)]. *)
Definition py_str (v : value) : string :=
  match v with
  | VNone => "None"
  | VStr s => s
  | VObjectId o => oid_str o
  | _ => repr v
  end.

(** [float(v)]. *)
Definition py_float (v : value) : outcome pyerr float :=
  match v with
  | VFloat x => Return x
  | VInt n => float_of_int n
  | VBool b => Return (if b then PrimFloat.one else PrimFloat.zero)
  | VStr s =>
      match float_of_str s with
      | Some x => Return x
      | None => Raise (ValueError "could not convert string to float")
      end
  | _ => Raise (TypeError "float() argument must be a string or a real number")
  end.

(** [int(v)]. *)
Definition py_int (v : value) : outcome pyerr Z :=
  match v with
  | VInt n => Return n
  | VBool b => Return (if b then 1 else 0)
  | VFloat x => int_of_float x
  | VStr s =>
      match int_of_str s with
      | Some n => Return n
      | None => Raise (ValueError "invalid literal for int() with base 10")
      end
  | _ => Raise (TypeError "int() argument must be a string, a bytes-like object or a real number")
  end.

(** ** Field validation (pydantic, lax mode)

    pydantic reports every failing field of a model; the embedding raises at
    the first one, which accepts and rejects the same inputs. *)

Definition validate_str (field : string) (v : value) : outcome pyerr string :=
  match v with
  | VStr s => Return s
  | _ => Raise (ValidationError field)
  end.

Definition validate_optional {A} (validate : string -> value -> outcome pyerr A)
    (field : string) (v : value) : outcome pyerr (option A) :=
  match v with
  | VNone => Return None
  | _ => a <- validate field v ;; Return (Some a)
  end.

Definition validate_list {A} (validate : string -> value -> outcome pyerr A)
    (field : string) (v : value) : outcome pyerr (list A) :=
  match v with
  | VList items => traverse (validate field) items
  | _ => Raise (ValidationError field)
  end.

Definition validate_dict (field : string) (v : value)
    : outcome pyerr (list (string * value)) :=
  match v with
  | VDict entries => Return entries
  | _ => Raise (ValidationError field)
  end.

Definition of_lax {A} (field : string) (o : option A) : outcome pyerr A :=
  match o with
  | Some a => Return a
  | None => Raise (ValidationError field)
  end.

Definition validate_datetime (field : string) (v : value) : outcome pyerr datetime :=
  match v with
  | VDate t => Return t
  | _ => of_lax field (lax_datetime v)
  end.

Definition validate_float (field : string) (v : value) : outcome pyerr float :=
  match v with
  | VFloat x => Return x
  | _ => of_lax field (lax_float v)
  end.

Definition validate_int (field : string) (v : value) : outcome pyerr Z :=
  match v with
  | VInt n => Return n
  | _ => of_lax field (lax_int v)
  end.

Definition validate_bool (field : string) (v : value) : outcome pyerr bool :=
  match v with
  | VBool b => Return b
  | _ => of_lax field (lax_bool v)
  end.

(** [EmailStr]: a [str] that email-validator accepts; the field holds the
    normalized address. *)
Definition validate_EmailStr (field : string) (v : value) : outcome pyerr string :=
  match v with
  | VStr s => of_lax field (validate_email s)
  | _ => Raise (ValidationError field)
  end.

(** [Field(..., ge=bound)] and [Field(..., le=bound)].  A NaN compares false
    and is rejected. *)
Definition ge_float (bound : float) (field : string) (x : float) : outcome pyerr float :=
  if PrimFloat.leb bound x then Return x else Raise (ValidationError field).

Definition ge_int (bound : Z) (field : string) (n : Z) : outcome pyerr Z :=
  if bound <=? n then Return n else Raise (ValidationError field).

Definition le_int (bound : Z) (field : string) (n : Z) : outcome pyerr Z :=
  if n <=? bound then Return n else Raise (ValidationError field).

(** A field declared [Field(...)]: the argument must be given. *)
Definition required {A} (validate : string -> value -> outcome pyerr A)
    (args : document) (field : string) : outcome pyerr A :=
  match args !! field with
  | Some v => validate field v
  | None => Raise (ValidationError field)
  end.

(** A field with a default, which pydantic does not validate. *)
Definition optional {A} (validate : string -> value -> outcome pyerr A)
    (args : document) (field : string) (dflt : A) : outcome pyerr A :=
  match args !! field with
  | Some v => validate field v
  | None => Return dflt
  end.

(** A validator followed by a bound. *)
Definition constrained {A} (validate : string -> value -> outcome pyerr A)
    (check : string -> A -> outcome pyerr A)
    (field : string) (v : value) : outcome pyerr A :=
  a <- validate field v ;; check field a.

(** ** main.py: the response and request models *)

Definition EventCard_init (args : document) : outcome pyerr EventCard.t :=
  id <- required validate_str args "id" ;;
  title <- required validate_str args "title" ;;
  subtitle <- optional (validate_optional validate_str) args "subtitle" None ;;
  banner_url <- optional (validate_optional validate_str) args "banner_url" None ;;
  start_at <- required validate_datetime args "start_at" ;;
  end_at <- required validate_datetime args "end_at" ;;
  status <- required validate_str args "status" ;;
  categories <- optional (validate_list validate_str) args "categories" [] ;;
  Return (EventCard.Build id title subtitle banner_url start_at end_at status categories).

Definition SubscribePayload_init (args : document) : outcome pyerr SubscribePayload.t :=
  email <- required validate_EmailStr args "email" ;;
  first_name <- optional (validate_optional validate_str) args "first_name" None ;;
  sale_event_id <- optional (validate_optional validate_str) args "sale_event_id" None ;;
  source <- optional (validate_optional validate_str) args "source" (Some "landing") ;;
  accepted_marketing <- optional validate_bool args "accepted_marketing" true ;;
  Return (SubscribePayload.Build email first_name sale_event_id source accepted_marketing).

Definition SubscribePayload_model_dump (p : SubscribePayload.t) : document :=
  kwargs [("email", VStr (SubscribePayload.email p));
          ("first_name", dump_optional_str (SubscribePayload.first_name p));
          ("sale_event_id", dump_optional_str (SubscribePayload.sale_event_id p));
          ("source", dump_optional_str (SubscribePayload.source p));
          ("accepted_marketing", VBool (SubscribePayload.accepted_marketing p))].

Definition ProductCard_init (args : document) : outcome pyerr ProductCard.t :=
  id <- required validate_str args "id" ;;
  title <- required validate_str args "title" ;;
  price_original <- required validate_float args "price_original" ;;
  price_sale <- required validate_float args "price_sale" ;;
  image <- optional (validate_optional validate_str) args "image" None ;;
  stock <- required validate_int args "stock" ;;
  Return (ProductCard.Build id title price_original price_sale image stock).

(** ** schemas.py *)

Definition Subscriber_init (args : document) : outcome pyerr Subscriber.t :=
  email <- required validate_EmailStr args "email" ;;
  first_name <- optional (validate_optional validate_str) args "first_name" None ;;
  sale_event_id <- optional (validate_optional validate_str) args "sale_event_id" None ;;
  source <- optional (validate_optional validate_str) args "source" (Some "landing") ;;
  accepted_marketing <- optional validate_bool args "accepted_marketing" true ;;
  Return (Subscriber.Build email first_name sale_event_id source accepted_marketing).

Definition Subscriber_model_dump (sub : Subscriber.t) : document :=
  kwargs [("email", VStr (Subscriber.email sub));
          ("first_name", dump_optional_str (Subscriber.first_name sub));
          ("sale_event_id", dump_optional_str (Subscriber.sale_event_id sub));
          ("source", dump_optional_str (Subscriber.source sub));
          ("accepted_marketing", VBool (Subscriber.accepted_marketing sub))].

Definition SaleProduct_init (args : document) : outcome pyerr SaleProduct.t :=
  sale_event_id <- required validate_str args "sale_event_id" ;;
  brand_id <- optional (validate_optional validate_str) args "brand_id" None ;;
  title <- required validate_str args "title" ;;
  description <- optional (validate_optional validate_str) args "description" None ;;
  images <- optional (validate_list validate_str) args "images" [] ;;
  price_original <-
    required (constrained validate_float (ge_float PrimFloat.zero)) args "price_original" ;;
  price_sale <-
    required (constrained validate_float (ge_float PrimFloat.zero)) args "price_sale" ;;
  stock <- required (constrained validate_int (ge_int 0)) args "stock" ;;
  sku <- optional (validate_optional validate_str) args "sku" None ;;
  attributes <- optional (validate_optional validate_dict) args "attributes" (Some []) ;;
  Return (SaleProduct.Build sale_event_id brand_id title description images
            price_original price_sale stock sku attributes).

Definition SaleProduct_model_dump (p : SaleProduct.t) : document :=
  kwargs [("sale_event_id", VStr (SaleProduct.sale_event_id p));
          ("brand_id", dump_optional_str (SaleProduct.brand_id p));
          ("title", VStr (SaleProduct.title p));
          ("description", dump_optional_str (SaleProduct.description p));
          ("images", dump_list_str (SaleProduct.images p));
          ("price_original", VFloat (SaleProduct.price_original p));
          ("price_sale", VFloat (SaleProduct.price_sale p));
          ("stock", VInt (SaleProduct.stock p));
          ("sku", dump_optional_str (SaleProduct.sku p));
          ("attributes", from_option VDict VNone (SaleProduct.attributes p))].

Definition Reservation_init (args : document) : outcome pyerr Reservation.t :=
  sale_event_id <- required validate_str args "sale_event_id" ;;
  product_id <- required validate_str args "product_id" ;;
  email <- required validate_EmailStr args "email" ;;
  quantity <-
    optional (constrained (constrained validate_int (ge_int 1)) (le_int 10))
      args "quantity" 1 ;;
  status <- optional validate_str args "status" "held" ;;
  Return (Reservation.Build sale_event_id product_id email quantity status).

Definition Reservation_model_dump (r : Reservation.t) : document :=
  kwargs [("sale_event_id", VStr (Reservation.sale_event_id r));
          ("product_id", VStr (Reservation.product_id r));
          ("email", VStr (Reservation.email r));
          ("quantity", VInt (Reservation.quantity r));
          ("status", VStr (Reservation.status r))].

End Program.

(** ** database.py

    The module is imported by [main.py] and is not among the sources; its
    three names are modelled from the specification (sections 4.2 and 7). *)

(** Modelled from the spec: the connection [db] behind [database.py], "a
    single database connection handle" over collections of raw documents.
    [next_id] is the identifier the server generates next; [fault] is the
    "unexpected exception" a driver call raises, if any. *)
Record database : Type := Database {
  collections : gmap string (list document);
  next_id : N;
  fault : option pyerr;
}.

(** Modelled from the spec: [db], absent ([None]) when the connection is
    "unavailable or uninitialized". *)
Definition handle : Type := option database.

Definition collection (name : string) (d : database) : list document :=
  default [] (collections d !! name).

Definition unavailable : pyerr := PyErr "Exception" "Database not available".

(** A filter expression: per field, [{field: v}] or [{field: {"$gte": v}}]. *)
Inductive condition : Type :=
| Equals (v : value)
| GreaterEq (v : value).

Definition query : Type := list (string * condition).

Fixpoint value_eqb (a b : value) : bool :=
  match a, b with
  | VNone, VNone => true
  | VBool x, VBool y => Bool.eqb x y
  | VInt x, VInt y => x =? y
  | VFloat x, VFloat y => PrimFloat.eqb x y
  | VStr x, VStr y => String.eqb x y
  | VDate x, VDate y => x =? y
  | VObjectId x, VObjectId y => (x =? y)%N
  | VList xs, VList ys =>
      (fix all2 (xs ys : list value) : bool :=
         match xs, ys with
         | [], [] => true
         | x :: xs', y :: ys' => value_eqb x y && all2 xs' ys'
         | _, _ => false
         end) xs ys
  | VDict xs, VDict ys =>
      (fix all2 (xs ys : list (string * value)) : bool :=
         match xs, ys with
         | [], [] => true
         | (k, x) :: xs', (l, y) :: ys' => String.eqb k l && value_eqb x y && all2 xs' ys'
         | _, _ => false
         end) xs ys
  | _, _ => false
  end.

(** [x >= bound], between values of one kind. *)
Definition value_geb (x bound : value) : bool :=
  match x, bound with
  | VDate t, VDate b => b <=? t
  | VInt n, VInt b => b <=? n
  | VFloat f, VFloat b => PrimFloat.leb b f
  | _, _ => false
  end.

Definition holds (c : condition) (field : option value) : bool :=
  match c, field with
  | Equals v, Some x => value_eqb v x
  | GreaterEq v, Some x => value_geb x v
  | _, None => false
  end.

Definition matches (q : query) (d : document) : bool :=
  forallb (fun kc => holds kc.2 (d !! kc.1)) q.

(** Modelled from the spec: "Insert: accepts a collection name and a
    validated record; returns the generated identifier; signals failure if
    the underlying connection is unavailable."  The record is stored under
    the generated [_id], after the documents already there. *)
Definition create_document (collection_name : string) (data : document)
    (db : handle) : outcome pyerr string * handle :=
  match db with
  | None => (Raise unavailable, db)
  | Some d =>
      match fault d with
      | Some e => (Raise e, db)
      | None =>
          let stored := <["_id" := VObjectId (next_id d)]> data in
          (Return (oid_str (next_id d)),
           Some {| collections :=
                     <[collection_name := (collection collection_name d ++ [stored])%list]>
                       (collections d);
                   next_id := N.succ (next_id d);
                   fault := None |})
      end
  end.

(** Modelled from the spec: "Query: accepts a collection name, a filter
    expression, and a result-count cap; returns a [...] list of raw
    documents", a "hard failure" when the database is unavailable. *)
Definition get_documents (collection_name : string) (filter_dict : query)
    (limit : nat) (db : handle) : outcome pyerr (list document) :=
  match db with
  | None => Raise unavailable
  | Some d =>
      match fault d with
      | Some e => Raise e
      | None =>
          Return (take limit (List.filter (matches filter_dict) (collection collection_name d)))
      end
  end.

(** Modelled from the spec: [db.list_collection_names()], by which the probe
    "reports [...] database reachability". *)
Definition list_collection_names (d : database) : outcome pyerr (list string) :=
  match fault d with
  | Some e => Raise e
  | None => Return (fst <$> map_to_list (collections d))
  end.

(** ** FastAPI: from a handler's outcome to the HTTP response *)

Inductive response (A : Type) : Type :=
| JSONResponse (status : Z) (content : A)
| ErrorResponse (status : Z) (detail : string).
Arguments JSONResponse {A} status content.
Arguments ErrorResponse {A} status detail.

(** A returned value is sent with status 200 (the cards of a listing are
    instances of the response model already), an [HTTPException] with its own
    status and detail, any other exception as a plain 500. *)
Definition respond {A} (r : outcome exn A) : response A :=
  match r with
  | Return a => JSONResponse 200 a
  | Raise (HTTPException status detail) => ErrorResponse status detail
  | Raise (Unhandled _) => ErrorResponse 500 "Internal Server Error"
  end.

(** ** main.py: the route handlers *)

Section Handlers.
Context `{Runtime}.

Definition read_root : document :=
  kwargs [("message", VStr "RunFlash backend ready")].

(** [os.getenv(name)], a value tested for truth, and [os.getenv(name) or
    fallback]. *)
Definition getenv (environ : gmap string string) (name : string) : option string :=
  environ !! name.

Definition env_set (o : option string) : bool :=
  match o with
  | Some s => negb (String.eqb s "")
  | None => false
  end.

Definition env_or (o : option string) (fallback : string) : string :=
  match o with
  | Some s => if String.eqb s "" then fallback else s
  | None => fallback
  end.

(** [GET /test].  Inside the outer [try], only [db.list_collection_names()]
    raises, and the inner [except] catches it: the outer [except] has no
    exception to catch. *)
Definition test_database (environ : gmap string string) (db : handle) : document :=
  let response :=
    kwargs [("backend", VStr "✅ Running");
            ("database", VStr "❌ Not Available");
            ("database_url", VStr "❌ Not Set");
            ("database_name", VStr "❌ Not Set");
            ("connection_status", VStr "Not Connected");
            ("collections", VList [])] in
  match db with
  | Some d =>
      let response := <["database" := VStr "✅ Available"]> response in
      let response :=
        <["database_url" :=
            VStr (if env_set (getenv environ "DATABASE_URL") then "✅ Set" else "❌ Not Set")]>
          response in
      let response :=
        <["database_name" := VStr (env_or (getenv environ "DATABASE_NAME") "Unknown")]>
          response in
      match list_collection_names d with
      | Return names =>
          let response := <["collections" := VList (VStr <$> take 20 names)]> response in
          let response := <["database" := VStr "✅ Connected & Working"]> response in
          <["connection_status" := VStr "Connected"]> response
      | Raise e =>
          <["database" :=
              VStr ("⚠️ Connected but error: " +:+ take_chars 80 (err_msg e))]>
            response
      end
  | None => <["database" := VStr "⚠️ Available but not initialized"]> response
  end.

(** The body of the loop of [list_events]: the card of one document. *)
Definition event_card (now : datetime) (d : document) : outcome pyerr EventCard.t :=
  EventCard_init
    (kwargs [("id", VStr (py_str (get d "_id")));
             ("title", get_default d "title" (VStr ""));
             ("subtitle", get d "subtitle");
             ("banner_url", get d "banner_url");
             ("start_at", get_default d "start_at" (VDate now));
             ("end_at", get_default d "end_at" (VDate now));
             ("status", get_default d "status" (VStr "scheduled"));
             ("categories", get_default d "categories" (VList []))]).

(** [GET /api/events], at the time [now]. *)
Definition list_events (now : datetime) (db : handle) : outcome exn (list EventCard.t) :=
  docs <- propagate (get_documents "saleevent" [("end_at", GreaterEq (VDate now))] 50 db) ;;
  fold_left
    (fun events d =>
       acc <- events ;;
       card <- propagate (event_card now d) ;;
       Return (acc ++ [card])%list)
    docs (Return []).

(** [POST /api/subscribe], once the body has been validated. *)
Definition subscribe (payload : SubscribePayload.t) (db : handle)
    : outcome exn document * handle :=
  match Subscriber_init (SubscribePayload_model_dump payload) with
  | Raise e => (Raise (Unhandled e), db)
  | Return sub =>
      match create_document "subscriber" (Subscriber_model_dump sub) db with
      | (Return inserted_id, db') =>
          (Return (kwargs [("ok", VBool true); ("id", VStr inserted_id)]), db')
      | (Raise e, db') => (Raise (HTTPException 500 (err_msg e)), db')
      end
  end.

(** The body of the loop of [list_event_products]. *)
Definition product_card (d : document) : outcome pyerr ProductCard.t :=
  price_original <- py_float (get_default d "price_original" (VInt 0)) ;;
  price_sale <- py_float (get_default d "price_sale" (VInt 0)) ;;
  image <- subscript0 (py_or (get d "images") (VList [VNone])) ;;
  stock <- py_int (get_default d "stock" (VInt 0)) ;;
  ProductCard_init
    (kwargs [("id", VStr (py_str (get d "_id")));
             ("title", get_default d "title" (VStr ""));
             ("price_original", VFloat price_original);
             ("price_sale", VFloat price_sale);
             ("image", image);
             ("stock", VInt stock)]).

(** [GET /api/events/{event_id}/products]. *)
Definition list_event_products (event_id : string) (db : handle)
    : outcome exn (list ProductCard.t) :=
  docs <- propagate (get_documents "saleproduct" [("sale_event_id", Equals (VStr event_id))] 200 db) ;;
  fold_left
    (fun items d =>
       acc <- items ;;
       card <- propagate (product_card d) ;;
       Return (acc ++ [card])%list)
    docs (Return []).

(** ** The routes *)

Definition GET_test (environ : gmap string string) (db : handle) : response document :=
  JSONResponse 200 (test_database environ db).

Definition GET_api_events (now : datetime) (db : handle) : response (list EventCard.t) :=
  respond (list_events now db).

(** The body is validated against [SubscribePayload] before the handler
    runs; a body that fails is answered 422, with the errors of the
    validation as detail, and the handler is not called. *)
Definition POST_api_subscribe (body : document) (db : handle)
    : response document * handle :=
  match SubscribePayload_init body with
  | Raise _ => (ErrorResponse 422 (validation_detail body), db)
  | Return payload =>
      let r := subscribe payload db in
      (respond r.1, r.2)
  end.

Definition GET_api_events_products (event_id : string) (db : handle)
    : response (list ProductCard.t) :=
  respond (list_event_products event_id db).

End Handlers.

(** ** Vocabulary of the statements *)

(** The document has an [end_at] date that is not before [now]. *)
Definition upcoming (now : datetime) (doc : document) : bool :=
  match doc !! "end_at" with
  | Some (VDate t) => now <=? t
  | _ => false
  end.

(** The document's [sale_event_id] is the string [event_id]. *)
Definition refers_to (event_id : string) (doc : document) : bool :=
  match doc !! "sale_event_id" with
  | Some (VStr s) => String.eqb event_id s
  | _ => false
  end.

Definition absent_or (p : value -> bool) (field : option value) : bool :=
  match field with
  | Some v => p v
  | None => true
  end.

Definition is_str (v : value) : bool :=
  match v with VStr _ => true | _ => false end.

Definition is_optional_str (v : value) : bool :=
  match v with VStr _ | VNone => true | _ => false end.

Definition is_date (v : value) : bool :=
  match v with VDate _ => true | _ => false end.

Definition is_float (v : value) : bool :=
  match v with VFloat _ => true | _ => false end.

Definition is_int (v : value) : bool :=
  match v with VInt _ => true | _ => false end.

Definition is_list_str (v : value) : bool :=
  match v with VList items => forallb is_str items | _ => false end.

(** A stored sale event in which every field the card reads is either
    missing or of the type [SaleEvent] declares. *)
Definition event_shaped (doc : document) : bool :=
  absent_or is_str (doc !! "title")
  && absent_or is_optional_str (doc !! "subtitle")
  && absent_or is_optional_str (doc !! "banner_url")
  && absent_or is_date (doc !! "start_at")
  && absent_or is_date (doc !! "end_at")
  && absent_or is_str (doc !! "status")
  && absent_or is_list_str (doc !! "categories").

(** A stored product in which every field the card reads is either missing
    or of the type [SaleProduct] declares. *)
Definition product_shaped (doc : document) : bool :=
  absent_or is_str (doc !! "title")
  && absent_or is_float (doc !! "price_original")
  && absent_or is_float (doc !! "price_sale")
  && absent_or is_list_str (doc !! "images")
  && absent_or is_int (doc !! "stock").

(** The body has an [email] that is a string email-validator accepts. *)
Definition well_formed_email `{Runtime} (body : document) : Prop :=
  exists s e, body !! "email" = Some (VStr s) /\ validate_email s = Some e.

(** A runtime for the examples: no lax conversion, no parsing of numbers,
    and an address is accepted as it stands when an ["@"] separates two
    non-empty parts. *)
Definition plain_email (s : string) : option string :=
  match String.index 0 "@" s with
  | Some (S n) => if (S (S n) <? String.length s)%nat then Some s else None
  | _ => None
  end.

Definition plain_runtime : Runtime := {|
  validate_email := plain_email;
  float_of_str := fun _ => None;
  int_of_str := fun _ => None;
  lax_float := fun _ => None;
  lax_int := fun _ => None;
  lax_bool := fun _ => None;
  lax_datetime := fun _ => None;
  repr := fun _ => "<object>";
  validation_detail := fun _ => "value is not a valid email address";
|}.

(** The documents [list_events] turns into cards: the first 50 upcoming
    events, in the order of the collection. *)
Definition listed_events (now : datetime) (d : database) : list document :=
  take 50 (List.filter (upcoming now) (collection "saleevent" d)).

(** The documents [list_event_products] turns into cards. *)
Definition listed_products (event_id : string) (d : database) : list document :=
  take 200 (List.filter (refers_to event_id) (collection "saleproduct" d)).

(** Sample data. *)
Definition sample_event (i : N) (end_at : datetime) : document :=
  kwargs [("_id", VObjectId i);
          ("title", VStr "Vente flash");
          ("start_at", VDate 0);
          ("end_at", VDate end_at);
          ("status", VStr "live")].

Definition sample_product (i : N) (event_id : string) (images : list string) : document :=
  kwargs [("_id", VObjectId i);
          ("sale_event_id", VStr event_id);
          ("title", VStr "Rhum arrange");
          ("images", dump_list_str images);
          ("price_original", VFloat PrimFloat.one);
          ("price_sale", VFloat PrimFloat.one);
          ("stock", VInt 3)].

Definition store (name : string) (docs : list document) (next : N) : database :=
  {| collections := {[ name := docs ]}; next_id := next; fault := None |}.


(** Two events, the first over at time 10, the second at time 200. *)
Definition agenda : database :=
  store "saleevent" [sample_event 1 10; sample_event 2 200] 3.

(** Three products, the first and the third of the event ["e1"]. *)
Definition catalogue : database :=
  store "saleproduct"
    [sample_product 1 "e1" ["a.png"; "b.png"];
     sample_product 2 "e2" [];
     sample_product 3 "e1" []] 4.

(** A message of [n] characters. *)
Fixpoint filler (n : nat) : string :=
  match n with
  | O => ""
  | S n' => String "x" (filler n')
  end.


(** A reachable database on which every call fails with [msg]. *)
Definition failing (msg : string) : database :=
  {| collections := ∅; next_id := 0; fault := Some (PyErr "AutoReconnect" msg) |}.

(** A reachable, empty database. *)
Definition empty_database : database :=
  {| collections := ∅; next_id := 0; fault := None |}.

(** The body [{"email": "a@b.com"}], and what it becomes. *)
Definition sample_body : document := kwargs [("email", VStr "a@b.com")].

Definition sample_payload : SubscribePayload.t :=
  SubscribePayload.Build "a@b.com" None None (Some "landing") true.

Definition sample_subscriber : Subscriber.t :=
  Subscriber.Build "a@b.com" None None (Some "landing") true.

(** The arguments of a [SaleProduct] with the given prices and stock, and of
    a [Reservation] with the given quantity. *)
Definition product_args (price_original price_sale : float) (stock : Z) : document :=
  kwargs [("sale_event_id", VStr "e1");
          ("title", VStr "Rhum arrange");
          ("price_original", VFloat price_original);
          ("price_sale", VFloat price_sale);
          ("stock", VInt stock)].

Definition reservation_args (quantity : Z) : document :=
  kwargs [("sale_event_id", VStr "e1");
          ("product_id", VStr "p1");
          ("email", VStr "a@b.com");
          ("quantity", VInt quantity)].

(** ** schemas.py: the models no route uses *)

Module Brand.
Record t : Type := Build {
  name : string;
  description : option string;
  logo_url : option string;
  origin : option string;
  website : option string;
}.
End Brand.

Module SaleEvent.
Record t : Type := Build {
  title : string;
  subtitle : option string;
  start_at : datetime;
  end_at : datetime;
  banner_url : option string;
  brand_ids : list string;
  categories : list string;
  status : string;
}.
End SaleEvent.

Module User.
Record t : Type := Build {
  name : string;
  email : string;
  address : option string;
  age : option Z;
  is_active : bool;
}.
End User.

Section Schemas.
Context `{Runtime}.

Definition Brand_init (args : document) : outcome pyerr Brand.t :=
  name <- required validate_str args "name" ;;
  description <- optional (validate_optional validate_str) args "description" None ;;
  logo_url <- optional (validate_optional validate_str) args "logo_url" None ;;
  origin <- optional (validate_optional validate_str) args "origin" None ;;
  website <- optional (validate_optional validate_str) args "website" None ;;
  Return (Brand.Build name description logo_url origin website).

Definition Brand_model_dump (b : Brand.t) : document :=
  kwargs [("name", VStr (Brand.name b));
          ("description", dump_optional_str (Brand.description b));
          ("logo_url", dump_optional_str (Brand.logo_url b));
          ("origin", dump_optional_str (Brand.origin b));
          ("website", dump_optional_str (Brand.website b))].

Definition SaleEvent_init (args : document) : outcome pyerr SaleEvent.t :=
  title <- required validate_str args "title" ;;
  subtitle <- optional (validate_optional validate_str) args "subtitle" None ;;
  start_at <- required validate_datetime args "start_at" ;;
  end_at <- required validate_datetime args "end_at" ;;
  banner_url <- optional (validate_optional validate_str) args "banner_url" None ;;
  brand_ids <- optional (validate_list validate_str) args "brand_ids" [] ;;
  categories <- optional (validate_list validate_str) args "categories" [] ;;
  status <- optional validate_str args "status" "scheduled" ;;
  Return (SaleEvent.Build title subtitle start_at end_at banner_url brand_ids
            categories status).

Definition SaleEvent_model_dump (ev : SaleEvent.t) : document :=
  kwargs [("title", VStr (SaleEvent.title ev));
          ("subtitle", dump_optional_str (SaleEvent.subtitle ev));
          ("start_at", VDate (SaleEvent.start_at ev));
          ("end_at", VDate (SaleEvent.end_at ev));
          ("banner_url", dump_optional_str (SaleEvent.banner_url ev));
          ("brand_ids", dump_list_str (SaleEvent.brand_ids ev));
          ("categories", dump_list_str (SaleEvent.categories ev));
          ("status", VStr (SaleEvent.status ev))].

Definition User_init (args : document) : outcome pyerr User.t :=
  name <- required validate_str args "name" ;;
  email <- required validate_EmailStr args "email" ;;
  address <- optional (validate_optional validate_str) args "address" None ;;
  age <-
    optional
      (validate_optional (constrained (constrained validate_int (ge_int 0)) (le_int 120)))
      args "age" None ;;
  is_active <- optional validate_bool args "is_active" true ;;
  Return (User.Build name email address age is_active).

End Schemas.

(** ** Further vocabulary *)

(** The keys a card of an event, and of a product, is read from. *)
Definition event_card_keys : list string :=
  ["_id"; "title"; "subtitle"; "banner_url"; "start_at"; "end_at"; "status"; "categories"].

Definition product_card_keys : list string :=
  ["_id"; "title"; "price_original"; "price_sale"; "images"; "stock"].

(** The fields of [SubscribePayload]. *)
Definition subscribe_keys : list string :=
  ["email"; "first_name"; "sale_event_id"; "source"; "accepted_marketing"].

(** The keys of the report of [GET /test]. *)
Definition report_keys : gset string :=
  {["backend"; "database"; "database_url"; "database_name"; "connection_status";
    "collections"]}.

(** The first element of a list of strings, as an optional string. *)
Definition first_image (images : list string) : option string := head images.

(** A stored sale event that ends at time 200 and whose title is null. *)
Definition untitled_event : document :=
  kwargs [("_id", VObjectId 9); ("title", VNone); ("end_at", VDate 200)].

(** Two upcoming events, the second with a null title. *)
Definition flawed_agenda : database :=
  store "saleevent" [sample_event 1 200; untitled_event] 10.

(** The values [v[0]] reads an element of: lists and strings. *)
Definition sequence_like (v : value) : bool :=
  match v with
  | VList _ | VStr _ => true
  | _ => false
  end.

(** A stored product with a negative stock and a negative price. *)
Definition oversold_product : document :=
  kwargs [("_id", VObjectId 4);
          ("sale_event_id", VStr "e1");
          ("title", VStr "Vanille");
          ("price_original", VFloat (PrimFloat.opp PrimFloat.one));
          ("price_sale", VFloat PrimFloat.one);
          ("stock", VInt (-5))].

(** The document an insert of [data] stores in [d], and the database after
    the insert. *)
Definition stored_as (data : document) (d : database) : document :=
  <["_id" := VObjectId (next_id d)]> data.

Definition inserted (name : string) (data : document) (d : database) : database :=
  {| collections := <[name := (collection name d ++ [stored_as data d])%list]> (collections d);
     next_id := N.succ (next_id d);
     fault := None |}.

(** The status of a response. *)
Definition status_of {A} (r : response A) : Z :=
  match r with
  | JSONResponse status _ => status
  | ErrorResponse status _ => status
  end.

(** A runtime whose validator lowers the one address ["A@b.com"] and
    refuses every other string, its own answer included. *)
Definition fussy_runtime : Runtime := {|
  validate_email := fun s => if String.eqb s "A@b.com" then Some "a@b.com" else None;
  float_of_str := fun _ => None;
  int_of_str := fun _ => None;
  lax_float := fun _ => None;
  lax_int := fun _ => None;
  lax_bool := fun _ => None;
  lax_datetime := fun _ => None;
  repr := fun _ => "<object>";
  validation_detail := fun _ => "value is not a valid email address";
|}.

(** The fields each model of [schemas.py] declares with [Field(...)] or
    without a default. *)
Definition SaleProduct_required : list string :=
  ["sale_event_id"; "title"; "price_original"; "price_sale"; "stock"].
Definition Reservation_required : list string := ["sale_event_id"; "product_id"; "email"].
Definition SaleEvent_required : list string := ["title"; "start_at"; "end_at"].
Definition User_required : list string := ["name"; "email"].

(** ** Facts about the embedding *)

Lemma bind_Return {E A B} (m : outcome E A) (k : A -> outcome E B) (b : B) :
  bind m k = Return b <-> exists a, m = Return a /\ k a = Return b.
Proof.
  destruct m as [a|e]; simpl.
  - split; [intros Hk; exists a; auto | intros (a' & Ha & Hk); congruence].
  - split; [discriminate | intros (a' & Ha & _); discriminate].
Qed.

Section Traverse.
Context {E A B : Type} (f : A -> outcome E B).

Lemma traverse_Forall2 (l : list A) (bs : list B) :
  traverse f l = Return bs <-> Forall2 (fun a b => f a = Return b) l bs.
Proof.
  revert bs; induction l as [|a l IH]; intros bs; cbn [traverse].
  - split.
    + intros [= <-]. constructor.
    + intros Hnil. inversion Hnil. reflexivity.
  - rewrite bind_Return. split.
    + intros (b & Hb & Hrest). destruct (traverse f l) as [bs'|e] eqn:Ht; simpl in Hrest.
      * injection Hrest as <-. constructor; [exact Hb | apply IH; reflexivity].
      * discriminate.
    + intros Hcons. inversion Hcons as [|? b ? bs' Hb Hrest]; subst.
      exists b. split; [exact Hb|]. apply IH in Hrest. rewrite Hrest. reflexivity.
Qed.

Lemma traverse_total (l : list A) :
  Forall (fun a => exists b, f a = Return b) l -> exists bs, traverse f l = Return bs.
Proof.
  induction 1 as [|a l [b Hb] _ [bs Hbs]]; simpl.
  - eexists; reflexivity.
  - rewrite Hb, Hbs. eexists; reflexivity.
Qed.

End Traverse.

Lemma propagate_Return {A} (m : outcome pyerr A) (a : A) :
  propagate m = Return a <-> m = Return a.
Proof. destruct m; simpl; split; congruence. Qed.

(** The loop of both listings, [for d in docs: acc.append(card(d))], is a
    traversal of [docs]. *)
Lemma loop_traverse {A B} (card : A -> outcome pyerr B) (docs : list A) (acc0 : list B) :
  fold_left
    (fun items d =>
       acc <- items ;; c <- propagate (card d) ;; Return (acc ++ [c])%list)
    docs (Return acc0)
  = (cs <- traverse (fun d => propagate (card d)) docs ;; Return (acc0 ++ cs)%list).
Proof.
  revert acc0; induction docs as [|d docs IH]; intros acc0; simpl.
  - rewrite app_nil_r. reflexivity.
  - destruct (propagate (card d)) as [c|e]; simpl.
    + rewrite IH. destruct (traverse _ docs) as [cs|e]; simpl; [|reflexivity].
      rewrite <- app_assoc. reflexivity.
    + clear IH. induction docs as [|d' docs IH]; simpl; [reflexivity | exact IH].
Qed.

Lemma loop_Forall2 {A B} (card : A -> outcome pyerr B) (docs : list A) (cs : list B) :
  fold_left
    (fun items d =>
       acc <- items ;; c <- propagate (card d) ;; Return (acc ++ [c])%list)
    docs (Return [])
  = Return cs
  <-> Forall2 (fun d c => card d = Return c) docs cs.
Proof.
  rewrite loop_traverse, bind_Return. split.
  - intros (cs' & Ht & [= <-]). apply traverse_Forall2 in Ht.
    eapply Forall2_impl; [exact Ht|]. intros d c. apply propagate_Return.
  - intros HF. exists cs. split; [|reflexivity]. apply traverse_Forall2.
    eapply Forall2_impl; [exact HF|]. intros d c. apply propagate_Return.
Qed.

Lemma hex_fixed_length (width : nat) (n : N) (acc : string) :
  String.length (hex_fixed width n acc) = (width + String.length acc)%nat.
Proof.
  revert n acc; induction width as [|w IH]; intros n acc; simpl; [reflexivity|].
  rewrite IH. simpl. lia.
Qed.

Lemma oid_str_length (o : N) : String.length (oid_str o) = 24%nat.
Proof. unfold oid_str. rewrite hex_fixed_length. reflexivity. Qed.

Lemma oid_str_nonempty (o : N) : oid_str o <> "".
Proof.
  intros Heq. pose proof (oid_str_length o) as Hlen. rewrite Heq in Hlen. discriminate.
Qed.

Lemma matches_upcoming (now : datetime) (doc : document) :
  matches [("end_at", GreaterEq (VDate now))] doc = upcoming now doc.
Proof.
  unfold matches, upcoming; simpl.
  destruct (doc !! "end_at") as [[]|]; simpl; try reflexivity.
  apply andb_true_r.
Qed.

Lemma matches_refers_to (event_id : string) (doc : document) :
  matches [("sale_event_id", Equals (VStr event_id))] doc = refers_to event_id doc.
Proof.
  unfold matches, refers_to; simpl.
  destruct (doc !! "sale_event_id") as [[]|]; simpl; try reflexivity.
  apply andb_true_r.
Qed.

Lemma upcoming_spec (now : datetime) (doc : document) :
  upcoming now doc = true <-> exists t, doc !! "end_at" = Some (VDate t) /\ now <= t.
Proof.
  unfold upcoming. destruct (doc !! "end_at") as [[]|]; split;
    try discriminate; try (intros (t' & [=] & _); fail).
  - intros Hle. eexists; split; [reflexivity | lia].
  - intros (t' & [= <-] & Hle). lia.
Qed.

Lemma refers_to_spec (event_id : string) (doc : document) :
  refers_to event_id doc = true <-> doc !! "sale_event_id" = Some (VStr event_id).
Proof.
  unfold refers_to. destruct (doc !! "sale_event_id") as [[]|]; split;
    try discriminate.
  - intros Heq. apply String.eqb_eq in Heq. congruence.
  - intros [= ->]. apply String.eqb_refl.
Qed.

(** What a query answers on a reachable database. *)
Lemma get_documents_reachable (name : string) (q : query) (limit : nat) (d : database) :
  fault d = None ->
  get_documents name q limit (Some d)
  = Return (take limit (List.filter (matches q) (collection name d))).
Proof. intros Hfault. unfold get_documents. rewrite Hfault. reflexivity. Qed.

Lemma filter_ext_bool {A} (p q : A -> bool) (l : list A) :
  (forall a, p a = q a) -> List.filter p l = List.filter q l.
Proof.
  intros Hpq. induction l as [|a l IH]; simpl; [reflexivity|].
  rewrite Hpq, IH. reflexivity.
Qed.

Section HandlerFacts.
Context `{Runtime}.

Lemma validate_optional_str_dump (field : string) (v : value) (o : option string) :
  validate_optional validate_str field v = Return o -> dump_optional_str o = v.
Proof. destruct v; simpl; intros [= <-]; reflexivity. Qed.

Lemma validate_list_str_shaped (field : string) (v : value) :
  is_list_str v = true -> exists l, validate_list validate_str field v = Return l.
Proof.
  destruct v as [| | | | | | |items|]; try discriminate. simpl.
  intros Hall. apply traverse_total. apply Forall_forall. intros x Hx.
  rewrite forallb_forall in Hall. apply list_elem_of_In in Hx.
  specialize (Hall x Hx). destruct x; try discriminate. eexists; reflexivity.
Qed.

(** [event_card], field by field. *)
Lemma event_card_eq (now : datetime) (d : document) :
  event_card now d
  = (title <- validate_str "title" (get_default d "title" (VStr "")) ;;
     subtitle <- validate_optional validate_str "subtitle" (get d "subtitle") ;;
     banner_url <- validate_optional validate_str "banner_url" (get d "banner_url") ;;
     start_at <- validate_datetime "start_at" (get_default d "start_at" (VDate now)) ;;
     end_at <- validate_datetime "end_at" (get_default d "end_at" (VDate now)) ;;
     status <- validate_str "status" (get_default d "status" (VStr "scheduled")) ;;
     categories <- validate_list validate_str "categories" (get_default d "categories" (VList [])) ;;
     Return (EventCard.Build (py_str (get d "_id")) title subtitle banner_url
               start_at end_at status categories)).
Proof. reflexivity. Qed.

(** [product_card]: the conversions, then the fields. *)
Lemma product_card_eq (d : document) :
  product_card d
  = (price_original <- py_float (get_default d "price_original" (VInt 0)) ;;
     price_sale <- py_float (get_default d "price_sale" (VInt 0)) ;;
     image <- subscript0 (py_or (get d "images") (VList [VNone])) ;;
     stock <- py_int (get_default d "stock" (VInt 0)) ;;
     title <- validate_str "title" (get_default d "title" (VStr "")) ;;
     image' <- validate_optional validate_str "image" image ;;
     Return (ProductCard.Build (py_str (get d "_id")) title price_original price_sale
               image' stock)).
Proof. reflexivity. Qed.

End HandlerFacts.

Section Cards.
Context `{Runtime}.

Lemma get_default_missing (d : document) (key : string) (dflt : value) :
  d !! key = None -> get_default d key dflt = dflt.
Proof. intros Hnone. unfold get_default. rewrite Hnone. reflexivity. Qed.

Lemma get_missing (d : document) (key : string) :
  d !! key = None -> get d key = VNone.
Proof. intros Hnone. unfold get. rewrite Hnone. reflexivity. Qed.

Lemma shaped_str (d : document) (key field dflt : string) :
  absent_or is_str (d !! key) = true ->
  exists s, validate_str field (get_default d key (VStr dflt)) = Return s.
Proof.
  unfold get_default. destruct (d !! key) as [[]|]; simpl; try discriminate;
    intros _; eexists; reflexivity.
Qed.

Lemma shaped_optional_str (d : document) (key field : string) :
  absent_or is_optional_str (d !! key) = true ->
  exists o, validate_optional validate_str field (get d key) = Return o.
Proof.
  unfold get. destruct (d !! key) as [[]|]; simpl; try discriminate;
    intros _; eexists; reflexivity.
Qed.

Lemma shaped_date (d : document) (key field : string) (now : datetime) :
  absent_or is_date (d !! key) = true ->
  exists t, validate_datetime field (get_default d key (VDate now)) = Return t.
Proof.
  unfold get_default. destruct (d !! key) as [[]|]; simpl; try discriminate;
    intros _; eexists; reflexivity.
Qed.

Lemma shaped_list_str (d : document) (key field : string) :
  absent_or is_list_str (d !! key) = true ->
  exists l, validate_list validate_str field (get_default d key (VList [])) = Return l.
Proof.
  unfold get_default. destruct (d !! key) as [v|]; simpl.
  - apply validate_list_str_shaped.
  - intros _. eexists; reflexivity.
Qed.

(** A shaped event has a card. *)
Lemma event_card_shaped (now : datetime) (doc : document) :
  event_shaped doc = true -> exists card, event_card now doc = Return card.
Proof.
  unfold event_shaped. rewrite !andb_true_iff.
  intros ((((((Ht & Hs) & Hb) & Hsa) & Hea) & Hst) & Hc).
  rewrite event_card_eq.
  destruct (shaped_str doc "title" "title" "" Ht) as [t ->].
  destruct (shaped_optional_str doc "subtitle" "subtitle" Hs) as [s ->].
  destruct (shaped_optional_str doc "banner_url" "banner_url" Hb) as [b ->].
  destruct (shaped_date doc "start_at" "start_at" now Hsa) as [sa ->].
  destruct (shaped_date doc "end_at" "end_at" now Hea) as [ea ->].
  destruct (shaped_str doc "status" "status" "scheduled" Hst) as [st ->].
  destruct (shaped_list_str doc "categories" "categories" Hc) as [c ->].
  eexists; reflexivity.
Qed.

(** The fields of a card, read back from the document. *)
Lemma event_card_fields (now : datetime) (doc : document) (card : EventCard.t) :
  event_card now doc = Return card ->
  EventCard.id card = py_str (get doc "_id")
  /\ validate_str "title" (get_default doc "title" (VStr "")) = Return (EventCard.title card)
  /\ validate_datetime "start_at" (get_default doc "start_at" (VDate now))
     = Return (EventCard.start_at card)
  /\ validate_datetime "end_at" (get_default doc "end_at" (VDate now))
     = Return (EventCard.end_at card)
  /\ validate_str "status" (get_default doc "status" (VStr "scheduled"))
     = Return (EventCard.status card)
  /\ validate_list validate_str "categories" (get_default doc "categories" (VList []))
     = Return (EventCard.categories card).
Proof.
  rewrite event_card_eq. intros Hcard.
  apply bind_Return in Hcard as (t & Ht & Hcard).
  apply bind_Return in Hcard as (s & Hs & Hcard).
  apply bind_Return in Hcard as (b & Hb & Hcard).
  apply bind_Return in Hcard as (sa & Hsa & Hcard).
  apply bind_Return in Hcard as (ea & Hea & Hcard).
  apply bind_Return in Hcard as (st & Hst & Hcard).
  apply bind_Return in Hcard as (c & Hc & Hcard).
  injection Hcard as <-. simpl. auto 10.
Qed.

(** C10. The projection of [list_events] puts the defaults in place of
    missing fields and does not fail on them: a document whose fields are
    each missing or of the declared type has a card, and in any card a
    missing [status] reads ["scheduled"], a missing [start_at] or [end_at]
    reads the current time, a missing [title] reads the empty string and
    missing [categories] read the empty list. *)
Theorem event_card_defaults (now : datetime) (doc : document) :
  (event_shaped doc = true -> exists card, event_card now doc = Return card)
  /\ (forall card, event_card now doc = Return card ->
        (doc !! "status" = None -> EventCard.status card = "scheduled")
        /\ (doc !! "start_at" = None -> EventCard.start_at card = now)
        /\ (doc !! "end_at" = None -> EventCard.end_at card = now)
        /\ (doc !! "title" = None -> EventCard.title card = "")
        /\ (doc !! "categories" = None -> EventCard.categories card = [])).
Proof.
  split; [apply event_card_shaped|].
  intros card Hcard.
  destruct (event_card_fields now doc card Hcard) as (_ & Ht & Hsa & Hea & Hst & Hc).
  repeat split; intros Hnone;
    rewrite (get_default_missing doc _ _ Hnone) in *; simpl in *; congruence.
Qed.

End Cards.

Section Listings.
Context `{Runtime}.

Lemma list_events_reachable (now : datetime) (d : database) (cards : list EventCard.t) :
  fault d = None ->
  list_events now (Some d) = Return cards
  <-> Forall2 (fun doc card => event_card now doc = Return card) (listed_events now d) cards.
Proof.
  intros Hfault. unfold list_events, listed_events.
  rewrite get_documents_reachable by exact Hfault. cbn [propagate bind].
  rewrite (filter_ext_bool _ _ _ (matches_upcoming now)).
  apply loop_Forall2.
Qed.

Lemma list_event_products_reachable (event_id : string) (d : database)
    (cards : list ProductCard.t) :
  fault d = None ->
  list_event_products event_id (Some d) = Return cards
  <-> Forall2 (fun doc card => product_card doc = Return card)
        (listed_products event_id d) cards.
Proof.
  intros Hfault. unfold list_event_products, listed_products.
  rewrite get_documents_reachable by exact Hfault. cbn [propagate bind].
  rewrite (filter_ext_bool _ _ _ (matches_refers_to event_id)).
  apply loop_Forall2.
Qed.

Lemma listed_events_upcoming (now : datetime) (d : database) (doc : document) :
  doc ∈ listed_events now d ->
  doc ∈ collection "saleevent" d /\ upcoming now doc = true.
Proof.
  unfold listed_events. intros Hin. apply elem_of_take in Hin as (i & Hin & _).
  apply list_elem_of_lookup_2, list_elem_of_In, filter_In in Hin as [Hin Hup].
  split; [apply list_elem_of_In; exact Hin | exact Hup].
Qed.

Lemma listed_products_refer (event_id : string) (d : database) (doc : document) :
  doc ∈ listed_products event_id d ->
  doc ∈ collection "saleproduct" d /\ refers_to event_id doc = true.
Proof.
  unfold listed_products. intros Hin. apply elem_of_take in Hin as (i & Hin & _).
  apply list_elem_of_lookup_2, list_elem_of_In, filter_In in Hin as [Hin Hup].
  split; [apply list_elem_of_In; exact Hin | exact Hup].
Qed.

(** The card of an event with an [end_at] date carries that date. *)
Lemma event_card_end_at (now t : datetime) (doc : document) (card : EventCard.t) :
  doc !! "end_at" = Some (VDate t) ->
  event_card now doc = Return card ->
  EventCard.end_at card = t.
Proof.
  intros Hend Hcard.
  destruct (event_card_fields now doc card Hcard) as (_ & _ & _ & Hea & _).
  unfold get_default in Hea. rewrite Hend in Hea. simpl in Hea. congruence.
Qed.

End Listings.

Section Products.
Context `{Runtime}.

Lemma shaped_float (d : document) (key : string) :
  absent_or is_float (d !! key) = true ->
  exists x, py_float (get_default d key (VInt 0)) = Return x.
Proof.
  unfold get_default. destruct (d !! key) as [[]|]; simpl; try discriminate;
    intros _; eexists; reflexivity.
Qed.

Lemma shaped_int (d : document) (key : string) :
  absent_or is_int (d !! key) = true ->
  exists n, py_int (get_default d key (VInt 0)) = Return n.
Proof.
  unfold get_default. destruct (d !! key) as [[]|]; simpl; try discriminate;
    intros _; eexists; reflexivity.
Qed.

Lemma shaped_first_image (d : document) :
  absent_or is_list_str (d !! "images") = true ->
  exists v o,
    subscript0 (py_or (get d "images") (VList [VNone])) = Return v
    /\ validate_optional validate_str "image" v = Return o.
Proof.
  unfold get. destruct (d !! "images") as [[| | | | | | |[|x items]|]|];
    simpl; try discriminate.
  - intros _. exists VNone, None. split; reflexivity.
  - destruct x; try discriminate. intros _. eexists _, _. split; reflexivity.
  - intros _. exists VNone, None. split; reflexivity.
Qed.

(** A shaped product has a card. *)
Lemma product_card_shaped (doc : document) :
  product_shaped doc = true -> exists card, product_card doc = Return card.
Proof.
  unfold product_shaped. rewrite !andb_true_iff.
  intros ((((Ht & Hpo) & Hps) & Hi) & Hs).
  rewrite product_card_eq.
  destruct (shaped_float doc "price_original" Hpo) as [po ->].
  destruct (shaped_float doc "price_sale" Hps) as [ps ->].
  destruct (shaped_first_image doc Hi) as (v & o & -> & Ho).
  destruct (shaped_int doc "stock" Hs) as [n ->].
  destruct (shaped_str doc "title" "title" "" Ht) as [t ->].
  cbn [bind]. rewrite Ho. eexists; reflexivity.
Qed.

(** The [image] argument of a card and the field it becomes. *)
Lemma product_card_image_arg (doc : document) (card : ProductCard.t) :
  product_card doc = Return card ->
  subscript0 (py_or (get doc "images") (VList [VNone]))
  = Return (dump_optional_str (ProductCard.image card)).
Proof.
  rewrite product_card_eq. intros Hcard.
  apply bind_Return in Hcard as (po & _ & Hcard).
  apply bind_Return in Hcard as (ps & _ & Hcard).
  apply bind_Return in Hcard as (v & Hv & Hcard).
  apply bind_Return in Hcard as (n & _ & Hcard).
  apply bind_Return in Hcard as (t & _ & Hcard).
  apply bind_Return in Hcard as (o & Ho & Hcard).
  injection Hcard as <-. simpl.
  apply validate_optional_str_dump in Ho. congruence.
Qed.

End Products.

(** ** The listings *)

Section ListingClaims.
Context `{Runtime}.

Lemma cards_exist {A B} (card : A -> outcome pyerr B) (docs : list A) :
  Forall (fun doc => exists c, card doc = Return c) docs ->
  exists cards, Forall2 (fun doc c => card doc = Return c) docs cards.
Proof.
  intros Hall. destruct (traverse_total card docs Hall) as [cards Hcards].
  exists cards. apply traverse_Forall2. exact Hcards.
Qed.



(** C3. On a reachable database, [GET /api/events/{event_id}/products]
    returns at most 200 cards, and each card is the card of a stored product
    whose [sale_event_id] is the requested [event_id]: the cards are those of
    the first 200 such products.  The listing succeeds when the products it
    reads are shaped as [SaleProduct] declares. *)
Theorem list_event_products_of_event (event_id : string) (d : database) :
  fault d = None ->
  (Forall (fun doc => product_shaped doc = true) (listed_products event_id d) ->
     exists cards, list_event_products event_id (Some d) = Return cards)
  /\ (forall cards, list_event_products event_id (Some d) = Return cards ->
        (length cards <= 200)%nat
        /\ Forall2 (fun doc card => product_card doc = Return card)
             (listed_products event_id d) cards
        /\ Forall (fun card =>
                     exists doc,
                       doc ∈ collection "saleproduct" d
                       /\ doc !! "sale_event_id" = Some (VStr event_id)
                       /\ product_card doc = Return card) cards).
Proof.
  intros Hfault. split.
  - intros Hshaped.
    destruct (cards_exist product_card (listed_products event_id d)) as [cards Hcards].
    + eapply Forall_impl; [exact Hshaped|]. intros doc. apply product_card_shaped.
    + exists cards. apply list_event_products_reachable; assumption.
  - intros cards Hret. apply list_event_products_reachable in Hret; [|exact Hfault].
    split; [|split; [exact Hret|]].
    + rewrite <- (Forall2_length _ _ _ Hret). unfold listed_products.
      rewrite length_take. lia.
    + apply Forall_lookup. intros i card Hi.
      destruct (Forall2_lookup_r _ _ _ _ _ Hret Hi) as (doc & Hdoc & Hcard).
      apply list_elem_of_lookup_2, listed_products_refer in Hdoc as [Hin Href].
      exists doc. split; [exact Hin|]. split; [|exact Hcard].
      apply refers_to_spec. exact Href.
Qed.

(** C4. The [image] of a product card is the first element of the
    document's [images] list when the list is not empty, and is absent when
    the list is empty or the field is missing; a product shaped as
    [SaleProduct] declares has a card. *)
Theorem product_card_image (doc : document) :
  (product_shaped doc = true -> exists card, product_card doc = Return card)
  /\ (forall card, product_card doc = Return card ->
        (forall first rest,
           doc !! "images" = Some (VList (first :: rest)) ->
           dump_optional_str (ProductCard.image card) = first)
        /\ (forall url rest,
              doc !! "images" = Some (VList (VStr url :: rest)) ->
              ProductCard.image card = Some url)
        /\ (doc !! "images" = Some (VList []) -> ProductCard.image card = None)
        /\ (doc !! "images" = None -> ProductCard.image card = None)).
Proof.
  split; [apply product_card_shaped|].
  intros card Hcard. apply product_card_image_arg in Hcard.
  unfold get in Hcard.
  assert (forall first rest,
            doc !! "images" = Some (VList (first :: rest)) ->
            dump_optional_str (ProductCard.image card) = first) as Hfirst.
  { intros first rest Himages. rewrite Himages in Hcard. simpl in Hcard. congruence. }
  split; [exact Hfirst|]. split; [|split].
  - intros url rest Himages. specialize (Hfirst _ _ Himages).
    destruct (ProductCard.image card); simpl in Hfirst; congruence.
  - intros Himages. rewrite Himages in Hcard. simpl in Hcard.
    destruct (ProductCard.image card); simpl in Hcard; congruence.
  - intros Himages. rewrite Himages in Hcard. simpl in Hcard.
    destruct (ProductCard.image card); simpl in Hcard; congruence.
Qed.

End ListingClaims.

(** The listings on sample data. *)



Lemma list_event_products_of_event_witness :
  fault catalogue = None
  /\ exists cards,
       @list_event_products plain_runtime "e1" (Some catalogue) = Return cards
       /\ (length cards <= 200)%nat
       /\ ProductCard.id <$> cards = [oid_str 1; oid_str 3]
       /\ ProductCard.image <$> cards = [Some "a.png"; None].
Proof.
  split; [reflexivity|].
  destruct (@list_event_products_of_event plain_runtime "e1" catalogue eq_refl)
    as [Hex Hall].
  destruct Hex as [cards Hcards].
  { vm_compute. repeat constructor. }
  exists cards. split; [exact Hcards|]. split; [apply (Hall cards Hcards)|].
  vm_compute in Hcards. injection Hcards as <-. split; reflexivity.
Defined.

Lemma product_card_image_witness :
  exists card,
    @product_card plain_runtime (sample_product 1 "e1" ["a.png"; "b.png"]) = Return card
    /\ ProductCard.image card = Some "a.png".
Proof.
  destruct (@product_card_image plain_runtime (sample_product 1 "e1" ["a.png"; "b.png"]))
    as [Hex Hall].
  destruct (Hex eq_refl) as [card Hcard].
  exists card. split; [exact Hcard|].
  destruct (Hall card Hcard) as (_ & Hurl & _).
  apply (Hurl "a.png" [VStr "b.png"]). reflexivity.
Defined.

Lemma event_card_defaults_witness :
  exists card,
    @event_card plain_runtime 100 (kwargs [("_id", VObjectId 7); ("end_at", VDate 500)])
    = Return card
    /\ EventCard.status card = "scheduled"
    /\ EventCard.start_at card = 100
    /\ EventCard.end_at card = 500
    /\ EventCard.title card = ""
    /\ EventCard.categories card = [].
Proof.
  destruct (@event_card_defaults plain_runtime 100
              (kwargs [("_id", VObjectId 7); ("end_at", VDate 500)])) as [Hex Hall].
  destruct (Hex eq_refl) as [card Hcard].
  exists card. split; [exact Hcard|].
  destruct (Hall card Hcard) as (Hst & Hsa & _ & Ht & Hc).
  split; [apply Hst; reflexivity|]. split; [apply Hsa; reflexivity|].
  split; [|split; [apply Ht; reflexivity | apply Hc; reflexivity]].
  vm_compute in Hcard. injection Hcard as <-. reflexivity.
Defined.

(** ** Subscribing *)

Lemma filler_length (n : nat) : String.length (filler n) = n.
Proof. induction n as [|n IH]; simpl; congruence. Qed.

Lemma create_document_returns (name : string) (data : document) (db db' : handle)
    (inserted_id : string) :
  create_document name data db = (Return inserted_id, db') ->
  exists d,
    db = Some d /\ fault d = None
    /\ inserted_id = oid_str (next_id d)
    /\ db' = Some {| collections :=
                       <[name := (collection name d ++ [<["_id" := VObjectId (next_id d)]> data])%list]>
                         (collections d);
                     next_id := N.succ (next_id d);
                     fault := None |}.
Proof.
  unfold create_document. destruct db as [d|]; [|discriminate].
  destruct (fault d) eqn:Hfault; [discriminate|].
  intros [= <- <-]. exists d. auto.
Qed.

Lemma create_document_raises (name : string) (data : document) (db db' : handle)
    (e : pyerr) :
  create_document name data db = (Raise e, db') -> db' = db.
Proof.
  unfold create_document. destruct db as [d|]; [|congruence].
  destruct (fault d); [congruence | discriminate].
Qed.

Lemma create_document_reachable (name : string) (data : document) (d : database) :
  fault d = None ->
  exists db', create_document name data (Some d) = (Return (oid_str (next_id d)), db').
Proof. intros Hfault. unfold create_document. rewrite Hfault. eexists; reflexivity. Qed.

Section Subscribing.
Context `{Runtime}.

(** [SubscribePayload], field by field. *)
Lemma SubscribePayload_init_fields (args : document) (p : SubscribePayload.t) :
  SubscribePayload_init args = Return p ->
  required validate_EmailStr args "email" = Return (SubscribePayload.email p)
  /\ optional (validate_optional validate_str) args "source" (Some "landing")
     = Return (SubscribePayload.source p)
  /\ optional validate_bool args "accepted_marketing" true
     = Return (SubscribePayload.accepted_marketing p).
Proof.
  unfold SubscribePayload_init. intros Hp.
  apply bind_Return in Hp as (e & He & Hp).
  apply bind_Return in Hp as (fn & _ & Hp).
  apply bind_Return in Hp as (se & _ & Hp).
  apply bind_Return in Hp as (so & Hso & Hp).
  apply bind_Return in Hp as (am & Ham & Hp).
  injection Hp as <-. auto.
Qed.

(** A [Subscriber] built from [payload.model_dump()]: the address is
    validated again and the other fields are copied. *)
Lemma Subscriber_of_payload (p : SubscribePayload.t) :
  Subscriber_init (SubscribePayload_model_dump p)
  = (email <- of_lax "email" (validate_email (SubscribePayload.email p)) ;;
     Return (Subscriber.Build email (SubscribePayload.first_name p)
               (SubscribePayload.sale_event_id p) (SubscribePayload.source p)
               (SubscribePayload.accepted_marketing p))).
Proof. destruct p as [e [fn|] [se|] [so|] am]; reflexivity. Qed.

Lemma Subscriber_of_payload_fields (p : SubscribePayload.t) (sub : Subscriber.t) :
  Subscriber_init (SubscribePayload_model_dump p) = Return sub ->
  Subscriber.source sub = SubscribePayload.source p
  /\ Subscriber.accepted_marketing sub = SubscribePayload.accepted_marketing p.
Proof.
  rewrite Subscriber_of_payload. intros Hsub.
  apply bind_Return in Hsub as (e & _ & Hsub). injection Hsub as <-. auto.
Qed.

(** A body whose address is not well formed fails validation. *)
Lemma SubscribePayload_init_malformed (body : document) :
  ~ well_formed_email body ->
  SubscribePayload_init body = Raise (ValidationError "email").
Proof.
  intros Hbad. unfold SubscribePayload_init, required.
  destruct (body !! "email") as [v|] eqn:Hemail; [|reflexivity].
  destruct v; try reflexivity. simpl.
  destruct (validate_email s) as [e|] eqn:Hs; [|reflexivity].
  exfalso. apply Hbad. exists s, e. auto.
Qed.

End Subscribing.

Section SubscribeClaims.
Context `{Runtime}.

(** The answer to a request whose insert returned [inserted_id]. *)
Lemma POST_api_subscribe_inserted (body : document) (payload : SubscribePayload.t)
    (sub : Subscriber.t) (db db' : handle) (inserted_id : string) :
  SubscribePayload_init body = Return payload ->
  Subscriber_init (SubscribePayload_model_dump payload) = Return sub ->
  create_document "subscriber" (Subscriber_model_dump sub) db = (Return inserted_id, db') ->
  POST_api_subscribe body db
  = (JSONResponse 200 (kwargs [("ok", VBool true); ("id", VStr inserted_id)]), db').
Proof.
  intros Hbody Hsub Hinsert.
  unfold POST_api_subscribe, subscribe. rewrite Hbody, Hsub, Hinsert. reflexivity.
Qed.

(** C1. For a body that passes validation, when the insert into the
    ["subscriber"] collection succeeds and returns [inserted_id], the
    response of [POST /api/subscribe] is the 200 answer
    [{"ok": True, "id": inserted_id}], and [inserted_id] is a non-empty
    string, the text of the generated identifier. *)
Theorem subscribe_returns_id (body : document) (payload : SubscribePayload.t)
    (sub : Subscriber.t) (db db' : handle) (inserted_id : string) :
  SubscribePayload_init body = Return payload ->
  Subscriber_init (SubscribePayload_model_dump payload) = Return sub ->
  create_document "subscriber" (Subscriber_model_dump sub) db = (Return inserted_id, db') ->
  exists content,
    POST_api_subscribe body db = (JSONResponse 200 content, db')
    /\ content !! "ok" = Some (VBool true)
    /\ content !! "id" = Some (VStr inserted_id)
    /\ inserted_id <> ""
    /\ exists d, db = Some d /\ inserted_id = py_str (VObjectId (next_id d)).
Proof.
  intros Hbody Hsub Hinsert.
  exists (kwargs [("ok", VBool true); ("id", VStr inserted_id)]).
  split; [|split; [reflexivity|split; [reflexivity|]]].
  - apply (POST_api_subscribe_inserted body payload sub); assumption.
  - apply create_document_returns in Hinsert as (d & -> & _ & -> & _).
    split; [apply oid_str_nonempty|]. exists d. split; reflexivity.
Qed.

(** C5. A body whose [email] is not a well-formed address is answered with
    the validation error 422, and the database handle is the one the request
    found: no insert is made. *)
Theorem subscribe_rejects_malformed_email (body : document) (db : handle) :
  ~ well_formed_email body ->
  exists detail, POST_api_subscribe body db = (ErrorResponse 422 detail, db).
Proof.
  intros Hbad. unfold POST_api_subscribe.
  rewrite (SubscribePayload_init_malformed body Hbad). eexists; reflexivity.
Qed.

(** C6, as amended.  Every exception raised by the insert is caught and
    answered with status 500, and the detail is the whole message of the
    exception, as long as the message is; the database is as it was. *)
Theorem subscribe_insert_error (body : document) (payload : SubscribePayload.t)
    (sub : Subscriber.t) (db db' : handle) (e : pyerr) :
  SubscribePayload_init body = Return payload ->
  Subscriber_init (SubscribePayload_model_dump payload) = Return sub ->
  create_document "subscriber" (Subscriber_model_dump sub) db = (Raise e, db') ->
  subscribe payload db = (Raise (HTTPException 500 (err_msg e)), db)
  /\ POST_api_subscribe body db = (ErrorResponse 500 (err_msg e), db).
Proof.
  intros Hbody Hsub Hinsert.
  pose proof (create_document_raises _ _ _ _ _ Hinsert) as ->.
  assert (subscribe payload db = (Raise (HTTPException 500 (err_msg e)), db)) as Hsubscribe.
  { unfold subscribe. rewrite Hsub, Hinsert. reflexivity. }
  split; [exact Hsubscribe|].
  unfold POST_api_subscribe. rewrite Hbody, Hsubscribe. reflexivity.
Qed.

(** C8. A [Subscriber] built without [source] and [accepted_marketing] has
    [source = "landing"] and [accepted_marketing = True]; and for a body
    that leaves the two fields out, so has the [Subscriber] the handler
    builds, and on a reachable database the document the request stores
    last in ["subscriber"] holds [accepted_marketing: true] and
    [source: "landing"]. *)
Theorem subscriber_defaults :
  (forall args sub,
     args !! "source" = None -> args !! "accepted_marketing" = None ->
     Subscriber_init args = Return sub ->
     Subscriber.source sub = Some "landing" /\ Subscriber.accepted_marketing sub = true)
  /\ (forall body payload sub,
        body !! "source" = None -> body !! "accepted_marketing" = None ->
        SubscribePayload_init body = Return payload ->
        Subscriber_init (SubscribePayload_model_dump payload) = Return sub ->
        Subscriber.source sub = Some "landing"
        /\ Subscriber.accepted_marketing sub = true
        /\ forall d, fault d = None ->
             exists content d' stored,
               POST_api_subscribe body (Some d) = (JSONResponse 200 content, Some d')
               /\ collection "subscriber" d' = (collection "subscriber" d ++ [stored])%list
               /\ stored !! "source" = Some (VStr "landing")
               /\ stored !! "accepted_marketing" = Some (VBool true)).
Proof.
  split.
  - intros args sub Hso Ham. unfold Subscriber_init, optional. intros Hsub.
    apply bind_Return in Hsub as (e & _ & Hsub).
    apply bind_Return in Hsub as (fn & _ & Hsub).
    apply bind_Return in Hsub as (se & _ & Hsub).
    rewrite Hso, Ham in Hsub. injection Hsub as <-. auto.
  - intros body payload sub Hso Ham Hbody Hsub.
    destruct (SubscribePayload_init_fields body payload Hbody) as (_ & Hso' & Ham').
    destruct (Subscriber_of_payload_fields payload sub Hsub) as (Esource & Emarketing).
    unfold optional in Hso', Ham'. rewrite Hso in Hso'. rewrite Ham in Ham'.
    injection Hso' as Hso'. injection Ham' as Ham'.
    assert (Subscriber.source sub = Some "landing") as Hsource by congruence.
    assert (Subscriber.accepted_marketing sub = true) as Hmarketing by congruence.
    split; [exact Hsource|]. split; [exact Hmarketing|].
    intros d Hfault.
    destruct (create_document_reachable "subscriber" (Subscriber_model_dump sub) d Hfault)
      as [db' Hinsert].
    pose proof (POST_api_subscribe_inserted body payload sub _ _ _ Hbody Hsub Hinsert)
      as Hpost.
    apply create_document_returns in Hinsert as (d0 & [= <-] & _ & _ & ->).
    eexists _, _, _. split; [exact Hpost|].
    split; [unfold collection at 1; simpl; rewrite lookup_insert_eq; reflexivity|].
    rewrite !lookup_insert_ne by done.
    destruct sub as [e fn se so am]; simpl in Hsource, Hmarketing; subst so am.
    split; reflexivity.
Qed.

End SubscribeClaims.

(** Subscribing, on sample data. *)

Lemma subscribe_returns_id_witness :
  exists content db',
    @POST_api_subscribe plain_runtime sample_body (Some empty_database)
    = (JSONResponse 200 content, db')
    /\ content !! "ok" = Some (VBool true)
    /\ content !! "id" = Some (VStr "000000000000000000000000").
Proof.
  destruct (@subscribe_returns_id plain_runtime sample_body sample_payload
              sample_subscriber (Some empty_database)
              (Some {| collections :=
                         {[ "subscriber" :=
                              [<["_id" := VObjectId 0]> (Subscriber_model_dump sample_subscriber)] ]};
                       next_id := 1;
                       fault := None |})
              "000000000000000000000000")
    as (content & Hpost & Hok & Hid & _).
  - vm_compute. reflexivity.
  - vm_compute. reflexivity.
  - vm_compute. reflexivity.
  - exists content. eexists. split; [exact Hpost|]. split; assumption.
Defined.

Lemma subscribe_rejects_malformed_email_witness :
  ~ @well_formed_email plain_runtime (kwargs [("email", VStr "not-an-email")])
  /\ exists detail,
       @POST_api_subscribe plain_runtime (kwargs [("email", VStr "not-an-email")])
         (Some empty_database)
       = (ErrorResponse 422 detail, Some empty_database).
Proof.
  assert (~ @well_formed_email plain_runtime (kwargs [("email", VStr "not-an-email")]))
    as Hbad.
  { intros (s & e & Hs & He). vm_compute in Hs. injection Hs as <-.
    vm_compute in He. discriminate. }
  split; [exact Hbad|].
  apply (@subscribe_rejects_malformed_email plain_runtime _ (Some empty_database) Hbad).
Defined.

Lemma subscribe_insert_error_witness :
  @POST_api_subscribe plain_runtime sample_body (Some (failing "connection refused"))
  = (ErrorResponse 500 "connection refused", Some (failing "connection refused")).
Proof.
  apply (@subscribe_insert_error plain_runtime sample_body sample_payload
           sample_subscriber (Some (failing "connection refused"))
           (Some (failing "connection refused"))
           (PyErr "AutoReconnect" "connection refused")).
  - vm_compute. reflexivity.
  - vm_compute. reflexivity.
  - vm_compute. reflexivity.
Defined.

(** C6, as stated, fails: no length bounds the detail.  An insert that
    fails with a message of [bound + 1] characters is answered with a detail
    of [bound + 1] characters. *)
Lemma subscribe_detail_unbounded :
  ~ exists bound : nat,
      forall payload db db' detail,
        @subscribe plain_runtime payload db = (Raise (HTTPException 500 detail), db') ->
        (String.length detail <= bound)%nat.
Proof.
  intros [bound Hbound].
  specialize (Hbound sample_payload (Some (failing (filler (S bound))))
                (Some (failing (filler (S bound)))) (filler (S bound)) eq_refl).
  rewrite filler_length in Hbound. lia.
Qed.

Lemma subscriber_defaults_witness :
  exists content d' stored,
    @POST_api_subscribe plain_runtime sample_body (Some empty_database)
    = (JSONResponse 200 content, Some d')
    /\ collection "subscriber" d' = [stored]
    /\ stored !! "source" = Some (VStr "landing")
    /\ stored !! "accepted_marketing" = Some (VBool true).
Proof.
  destruct (@subscriber_defaults plain_runtime) as [_ Hflow].
  destruct (Hflow sample_body sample_payload sample_subscriber) as (_ & _ & Hstore).
  - reflexivity.
  - reflexivity.
  - vm_compute. reflexivity.
  - vm_compute. reflexivity.
  - destruct (Hstore empty_database eq_refl) as (content & d' & stored & Hpost & Hcoll & Hs & Hm).
    exists content, d', stored. auto.
Defined.

(** ** Without a database *)

Section AbsentDatabase.
Context `{Runtime}.

(** C7. When [db] is [None], [GET /test] answers 200 with a report that
    says the database is not initialized and not connected, and the three
    data routes answer with the server error 500: the listings always, the
    subscription for every body that passes validation. *)
Theorem absent_database :
  (forall environ,
     exists content,
       GET_test environ None = JSONResponse 200 content
       /\ content !! "backend" = Some (VStr "✅ Running")
       /\ content !! "database" = Some (VStr "⚠️ Available but not initialized")
       /\ content !! "connection_status" = Some (VStr "Not Connected")
       /\ content !! "collections" = Some (VList []))
  /\ (forall now, GET_api_events now None = ErrorResponse 500 "Internal Server Error")
  /\ (forall event_id,
        GET_api_events_products event_id None = ErrorResponse 500 "Internal Server Error")
  /\ (forall body payload,
        SubscribePayload_init body = Return payload ->
        exists detail, POST_api_subscribe body None = (ErrorResponse 500 detail, None)).
Proof.
  split; [|split; [|split]].
  - intros environ. eexists. split; [reflexivity|]. repeat split; reflexivity.
  - intros now. reflexivity.
  - intros event_id. reflexivity.
  - intros body payload Hbody. unfold POST_api_subscribe, subscribe. rewrite Hbody.
    destruct (Subscriber_init (SubscribePayload_model_dump payload)) as [sub|e];
      simpl; eexists; reflexivity.
Qed.

End AbsentDatabase.

Lemma absent_database_witness :
  @POST_api_subscribe plain_runtime sample_body None
  = (ErrorResponse 500 "Database not available", None)
  /\ @GET_api_events plain_runtime 100 None = ErrorResponse 500 "Internal Server Error".
Proof.
  destruct (@absent_database plain_runtime) as (_ & Hevents & _ & Hsubscribe).
  split; [|apply Hevents].
  destruct (Hsubscribe sample_body sample_payload) as [detail Hpost].
  - vm_compute. reflexivity.
  - rewrite Hpost. vm_compute in Hpost. injection Hpost as <-. reflexivity.
Defined.

(** ** The bounds of the schemas *)

Section Bounds.
Context `{Runtime}.

Lemma constrained_Return {A} (validate : string -> value -> outcome pyerr A)
    (check : string -> A -> outcome pyerr A) (field : string) (v : value) (a : A) :
  constrained validate check field v = Return a
  <-> exists a0, validate field v = Return a0 /\ check field a0 = Return a.
Proof. unfold constrained. apply bind_Return. Qed.

Lemma ge_float_Return (bound : float) (field : string) (x y : float) :
  ge_float bound field x = Return y <-> y = x /\ PrimFloat.leb bound x = true.
Proof.
  unfold ge_float. destruct (PrimFloat.leb bound x); split;
    try discriminate; try (intros [_ [=]]; fail).
  - intros [= <-]. auto.
  - intros [-> _]. reflexivity.
Qed.

Lemma ge_int_Return (bound : Z) (field : string) (n m : Z) :
  ge_int bound field n = Return m <-> m = n /\ bound <= n.
Proof.
  unfold ge_int. destruct (Z.leb_spec bound n); split;
    try discriminate; try (intros [_ ?]; lia).
  - intros [= <-]. auto.
  - intros [-> _]. reflexivity.
Qed.

Lemma le_int_Return (bound : Z) (field : string) (n m : Z) :
  le_int bound field n = Return m <-> m = n /\ n <= bound.
Proof.
  unfold le_int. destruct (Z.leb_spec n bound); split;
    try discriminate; try (intros [_ ?]; lia).
  - intros [= <-]. auto.
  - intros [-> _]. reflexivity.
Qed.

(** The bounded fields of [SaleProduct]. *)
Lemma SaleProduct_init_fields (args : document) (p : SaleProduct.t) :
  SaleProduct_init args = Return p ->
  required (constrained validate_float (ge_float PrimFloat.zero)) args "price_original"
  = Return (SaleProduct.price_original p)
  /\ required (constrained validate_float (ge_float PrimFloat.zero)) args "price_sale"
     = Return (SaleProduct.price_sale p)
  /\ required (constrained validate_int (ge_int 0)) args "stock"
     = Return (SaleProduct.stock p).
Proof.
  unfold SaleProduct_init. intros Hp.
  apply bind_Return in Hp as (se & _ & Hp).
  apply bind_Return in Hp as (b & _ & Hp).
  apply bind_Return in Hp as (t & _ & Hp).
  apply bind_Return in Hp as (de & _ & Hp).
  apply bind_Return in Hp as (im & _ & Hp).
  apply bind_Return in Hp as (po & Hpo & Hp).
  apply bind_Return in Hp as (ps & Hps & Hp).
  apply bind_Return in Hp as (st & Hst & Hp).
  apply bind_Return in Hp as (sk & _ & Hp).
  apply bind_Return in Hp as (at' & _ & Hp).
  injection Hp as <-. auto.
Qed.

(** The bounded field of [Reservation]. *)
Lemma Reservation_init_fields (args : document) (r : Reservation.t) :
  Reservation_init args = Return r ->
  optional (constrained (constrained validate_int (ge_int 1)) (le_int 10))
    args "quantity" 1
  = Return (Reservation.quantity r).
Proof.
  unfold Reservation_init. intros Hr.
  apply bind_Return in Hr as (se & _ & Hr).
  apply bind_Return in Hr as (pr & _ & Hr).
  apply bind_Return in Hr as (e & _ & Hr).
  apply bind_Return in Hr as (q & Hq & Hr).
  apply bind_Return in Hr as (st & _ & Hr).
  injection Hr as <-. exact Hq.
Qed.

Lemma required_ge_float (args : document) (field : string) (v : value) (y : float) :
  args !! field = Some v ->
  required (constrained validate_float (ge_float PrimFloat.zero)) args field = Return y ->
  validate_float field v = Return y /\ PrimFloat.leb PrimFloat.zero y = true.
Proof.
  intros Hv. unfold required. rewrite Hv. intros Hy.
  apply constrained_Return in Hy as (x & Hx & Hy).
  apply ge_float_Return in Hy as [-> Hle]. auto.
Qed.

Lemma required_ge_int (args : document) (field : string) (v : value) (m : Z) :
  args !! field = Some v ->
  required (constrained validate_int (ge_int 0)) args field = Return m ->
  validate_int field v = Return m /\ 0 <= m.
Proof.
  intros Hv. unfold required. rewrite Hv. intros Hm.
  apply constrained_Return in Hm as (n & Hn & Hm).
  apply ge_int_Return in Hm as [-> Hle]. auto.
Qed.

Lemma required_given {A} (validate : string -> value -> outcome pyerr A)
    (args : document) (field : string) (a : A) :
  required validate args field = Return a -> exists v, args !! field = Some v.
Proof.
  unfold required. destruct (args !! field) as [v|]; [eauto | discriminate].
Qed.

Lemma quantity_bounds (args : document) (q : Z) :
  optional (constrained (constrained validate_int (ge_int 1)) (le_int 10))
    args "quantity" 1 = Return q ->
  1 <= q <= 10
  /\ forall v, args !! "quantity" = Some v -> validate_int "quantity" v = Return q.
Proof.
  unfold optional. destruct (args !! "quantity") as [v|].
  - intros Hq. apply constrained_Return in Hq as (n & Hn & Hq).
    apply constrained_Return in Hn as (m & Hm & Hn).
    apply ge_int_Return in Hn as [-> Hge]. apply le_int_Return in Hq as [-> Hle].
    split; [lia|]. intros v' [= <-]. exact Hm.
  - intros [= <-]. split; [lia | discriminate].
Qed.

End Bounds.

Section BoundClaims.
Context `{Runtime}.

(** C9. Validation enforces the declared bounds.  Every [SaleProduct] it
    accepts has [price_original >= 0], [price_sale >= 0] and [stock >= 0],
    and every [Reservation] it accepts has [1 <= quantity <= 10]; arguments
    whose price is not at least 0 (a NaN included), whose stock is negative
    or whose quantity is outside 1..10 are rejected. *)
Theorem schema_bounds :
  (forall args p,
     SaleProduct_init args = Return p ->
     PrimFloat.leb PrimFloat.zero (SaleProduct.price_original p) = true
     /\ PrimFloat.leb PrimFloat.zero (SaleProduct.price_sale p) = true
     /\ 0 <= SaleProduct.stock p)
  /\ (forall args r,
        Reservation_init args = Return r -> 1 <= Reservation.quantity r <= 10)
  /\ (forall args field v x,
        field = "price_original" \/ field = "price_sale" ->
        args !! field = Some v -> validate_float field v = Return x ->
        PrimFloat.leb PrimFloat.zero x = false ->
        exists e, SaleProduct_init args = Raise e)
  /\ (forall args v n,
        args !! "stock" = Some v -> validate_int "stock" v = Return n -> n < 0 ->
        exists e, SaleProduct_init args = Raise e)
  /\ (forall args v n,
        args !! "quantity" = Some v -> validate_int "quantity" v = Return n ->
        n < 1 \/ 10 < n ->
        exists e, Reservation_init args = Raise e).
Proof.
  split; [|split; [|split; [|split]]].
  - intros args p Hp.
    destruct (SaleProduct_init_fields args p Hp) as (Hpo & Hps & Hst).
    destruct (required_given _ _ _ _ Hpo) as [vpo Hvpo].
    destruct (required_given _ _ _ _ Hps) as [vps Hvps].
    destruct (required_given _ _ _ _ Hst) as [vst Hvst].
    split; [exact (proj2 (required_ge_float _ _ _ _ Hvpo Hpo))|].
    split; [exact (proj2 (required_ge_float _ _ _ _ Hvps Hps))|].
    exact (proj2 (required_ge_int _ _ _ _ Hvst Hst)).
  - intros args r Hr. apply Reservation_init_fields in Hr.
    apply quantity_bounds in Hr as [Hq _]. exact Hq.
  - intros args field v x Hfield Hv Hx Hneg.
    destruct (SaleProduct_init args) as [p|e] eqn:Hp; [exfalso | eexists; reflexivity].
    destruct (SaleProduct_init_fields args p Hp) as (Hpo & Hps & _).
    destruct Hfield as [-> | ->].
    + destruct (required_ge_float _ _ _ _ Hv Hpo) as [Hx' Hle]. congruence.
    + destruct (required_ge_float _ _ _ _ Hv Hps) as [Hx' Hle]. congruence.
  - intros args v n Hv Hn Hneg.
    destruct (SaleProduct_init args) as [p|e] eqn:Hp; [exfalso | eexists; reflexivity].
    destruct (SaleProduct_init_fields args p Hp) as (_ & _ & Hst).
    destruct (required_ge_int _ _ _ _ Hv Hst) as [Hn' Hle].
    assert (SaleProduct.stock p = n) by congruence. lia.
  - intros args v n Hv Hn Hout.
    destruct (Reservation_init args) as [r|e] eqn:Hr; [exfalso | eexists; reflexivity].
    apply Reservation_init_fields, quantity_bounds in Hr as [Hq Hval].
    specialize (Hval v Hv). assert (Reservation.quantity r = n) by congruence. lia.
Qed.

End BoundClaims.

Lemma schema_bounds_witness :
  (exists p, @SaleProduct_init plain_runtime (product_args PrimFloat.one PrimFloat.zero 0)
             = Return p
             /\ 0 <= SaleProduct.stock p)
  /\ (exists e, @SaleProduct_init plain_runtime
                  (product_args (PrimFloat.opp PrimFloat.one) PrimFloat.one 3) = Raise e)
  /\ (exists e, @SaleProduct_init plain_runtime
                  (product_args PrimFloat.nan PrimFloat.one 3) = Raise e)
  /\ (exists e, @SaleProduct_init plain_runtime
                  (product_args PrimFloat.one PrimFloat.one (-1)) = Raise e)
  /\ (exists r, @Reservation_init plain_runtime (reservation_args 10) = Return r)
  /\ (exists e, @Reservation_init plain_runtime (reservation_args 11) = Raise e)
  /\ (exists e, @Reservation_init plain_runtime (reservation_args 0) = Raise e).
Proof.
  destruct (@schema_bounds plain_runtime) as (Hok & _ & Hprice & Hstock & Hquantity).
  split; [|split; [|split; [|split; [|split; [|split]]]]].
  - eexists. split; [vm_compute; reflexivity|].
    refine (proj2 (proj2 (Hok (product_args PrimFloat.one PrimFloat.zero 0) _ _))).
    vm_compute. reflexivity.
  - apply (Hprice _ "price_original" (VFloat (PrimFloat.opp PrimFloat.one))
             (PrimFloat.opp PrimFloat.one)); [left | | |]; reflexivity.
  - apply (Hprice _ "price_original" (VFloat PrimFloat.nan) PrimFloat.nan);
      [left | | |]; reflexivity.
  - apply (Hstock _ (VInt (-1)) (-1)); [reflexivity | reflexivity | lia].
  - eexists. vm_compute. reflexivity.
  - apply (Hquantity _ (VInt 11) 11); [reflexivity | reflexivity | lia].
  - apply (Hquantity _ (VInt 0) 0); [reflexivity | reflexivity | lia].
Defined.

(** ** Further properties: the status probe *)



Section Probe.
Context `{Runtime}.

(** X1. Whatever the environment and the database, the report of
    [GET /test] has the same six keys, and its [backend] entry says the
    backend is running. *)
Theorem test_database_keys (environ : gmap string string) (db : handle) :
  dom (test_database environ db) = report_keys
  /\ test_database environ db !! "backend" = Some (VStr "✅ Running").
Proof.
  unfold test_database. destruct db as [d|]; [destruct (list_collection_names d)|];
    split; reflexivity.
Qed.

(** X2. When the database lists its collections, the report names at most
    20 of them, the first 20 of the list, and says the database is connected
    and working. *)
Theorem test_database_connected (environ : gmap string string) (d : database)
    (names : list string) :
  list_collection_names d = Return names ->
  exists shown,
    test_database environ (Some d) !! "collections" = Some (VList (VStr <$> shown))
    /\ shown = take 20 names
    /\ (length shown <= 20)%nat
    /\ test_database environ (Some d) !! "database" = Some (VStr "✅ Connected & Working")
    /\ test_database environ (Some d) !! "connection_status" = Some (VStr "Connected").
Proof.
  intros Hnames. exists (take 20 names). unfold test_database. rewrite Hnames.
  split; [reflexivity|]. split; [reflexivity|].
  split; [rewrite length_take; lia|]. split; reflexivity.
Qed.


(** X4. The [database_url] entry of the report is one of two fixed
    strings, whatever [DATABASE_URL] holds: it says "Set" exactly when the
    database handle is present and the variable holds a non-empty string.
    The [database_name] entry is the value of [DATABASE_NAME] when the
    handle is present and the variable is not empty, ["Unknown"] when the
    variable is unset or empty, and with an absent handle both entries read
    "Not Set" whatever the environment holds. *)
Theorem test_database_environment (environ : gmap string string) (db : handle) :
  (test_database environ db !! "database_url" = Some (VStr "✅ Set")
   \/ test_database environ db !! "database_url" = Some (VStr "❌ Not Set"))
  /\ (test_database environ db !! "database_url" = Some (VStr "✅ Set")
      <-> exists d url, db = Some d /\ environ !! "DATABASE_URL" = Some url /\ url <> "")
  /\ (forall d name,
        db = Some d -> environ !! "DATABASE_NAME" = Some name -> name <> "" ->
        test_database environ db !! "database_name" = Some (VStr name))
  /\ (forall d,
        db = Some d ->
        environ !! "DATABASE_NAME" = None \/ environ !! "DATABASE_NAME" = Some "" ->
        test_database environ db !! "database_name" = Some (VStr "Unknown"))
  /\ (db = None ->
      test_database environ db !! "database_url" = Some (VStr "❌ Not Set")
      /\ test_database environ db !! "database_name" = Some (VStr "❌ Not Set")).
Proof.
  assert (forall d,
            test_database environ (Some d) !! "database_url"
            = Some (VStr (if env_set (getenv environ "DATABASE_URL")
                          then "✅ Set" else "❌ Not Set"))) as Hurl.
  { intros d. unfold test_database. destruct (list_collection_names d); reflexivity. }
  assert (forall d,
            test_database environ (Some d) !! "database_name"
            = Some (VStr (env_or (getenv environ "DATABASE_NAME") "Unknown"))) as Hname.
  { intros d. unfold test_database. destruct (list_collection_names d); reflexivity. }
  unfold getenv, env_set, env_or in *.
  split; [|split; [|split; [|split]]].
  - destruct db as [d|]; [|right; reflexivity]. rewrite Hurl.
    destruct (environ !! "DATABASE_URL") as [url|]; [|right; reflexivity].
    destruct (String.eqb url ""); [right | left]; reflexivity.
  - split.
    + destruct db as [d|]; [|discriminate]. rewrite Hurl.
      destruct (environ !! "DATABASE_URL") as [url|]; [|discriminate].
      destruct (String.eqb_spec url ""); [discriminate|].
      intros _. exists d, url. auto.
    + intros (d & url & -> & Henv & Hne). rewrite Hurl, Henv.
      destruct (String.eqb_spec url ""); [contradiction | reflexivity].
  - intros d name -> Henv Hne. rewrite Hname, Henv.
    destruct (String.eqb_spec name ""); [contradiction | reflexivity].
  - intros d -> [Henv | Henv]; rewrite Hname, Henv; reflexivity.
  - intros ->. split; reflexivity.
Qed.

End Probe.

Lemma test_database_connected_witness :
  list_collection_names agenda = Return ["saleevent"]
  /\ test_database ∅ (Some agenda) !! "collections" = Some (VList [VStr "saleevent"])
  /\ test_database ∅ (Some agenda) !! "connection_status" = Some (VStr "Connected").
Proof.
  assert (list_collection_names agenda = Return ["saleevent"]) as Hnames
    by (vm_compute; reflexivity).
  split; [exact Hnames|].
  destruct (test_database_connected ∅ agenda ["saleevent"] Hnames)
    as (shown & Hshown & -> & _ & _ & Hstatus).
  split; [exact Hshown | exact Hstatus].
Defined.


(** ** Further properties: the cards *)

Lemma traverse_propagate_raises {A B} (card : A -> outcome pyerr B) (docs : list A)
    (doc : A) (e : pyerr) :
  doc ∈ docs -> card doc = Raise e ->
  exists e', traverse (fun d => propagate (card d)) docs = Raise (Unhandled e').
Proof.
  intros Hin Hraise. induction docs as [|a docs IH]; [inversion Hin|].
  cbn [traverse]. destruct (card a) as [b|e0] eqn:Ha; cbn [propagate bind].
  - apply elem_of_cons in Hin as [-> | Hin]; [congruence|].
    destruct (IH Hin) as [e' ->]. exists e'. reflexivity.
  - exists e0. reflexivity.
Qed.



Section CardFacts.
Context `{Runtime}.

Lemma validate_list_str_dump (field : string) (l : list string) :
  validate_list validate_str field (dump_list_str l) = Return l.
Proof.
  unfold dump_list_str. cbn [validate_list].
  induction l as [|s l IH]; cbn [fmap list_fmap traverse]; [reflexivity|].
  cbn [validate_str bind]. fold (fmap (M:=list) VStr l). rewrite IH. reflexivity.
Qed.

Lemma validate_optional_str_of_dump (field : string) (o : option string) :
  validate_optional validate_str field (dump_optional_str o) = Return o.
Proof. destruct o; reflexivity. Qed.

(** The optional fields of a card of an event. *)
Lemma event_card_optional_fields (now : datetime) (doc : document) (card : EventCard.t) :
  event_card now doc = Return card ->
  dump_optional_str (EventCard.subtitle card) = get doc "subtitle"
  /\ dump_optional_str (EventCard.banner_url card) = get doc "banner_url".
Proof.
  rewrite event_card_eq. intros Hcard.
  apply bind_Return in Hcard as (t & Ht & Hcard).
  apply bind_Return in Hcard as (s & Hs & Hcard).
  apply bind_Return in Hcard as (b & Hb & Hcard).
  apply bind_Return in Hcard as (sa & Hsa & Hcard).
  apply bind_Return in Hcard as (ea & Hea & Hcard).
  apply bind_Return in Hcard as (st & Hst & Hcard).
  apply bind_Return in Hcard as (c & Hc & Hcard).
  injection Hcard as <-. simpl.
  split; eapply validate_optional_str_dump; eassumption.
Qed.


End CardFacts.

Section EventCards.
Context `{Runtime}.


(** X6. A listing is all or nothing: when one of the documents it reads has
    no card, the route answers the plain server error 500 and returns no
    card of the other documents. *)
Theorem listing_all_or_nothing :
  (forall now d doc e,
     fault d = None -> doc ∈ listed_events now d -> event_card now doc = Raise e ->
     GET_api_events now (Some d) = ErrorResponse 500 "Internal Server Error")
  /\ (forall event_id d doc e,
        fault d = None -> doc ∈ listed_products event_id d ->
        product_card doc = Raise e ->
        GET_api_events_products event_id (Some d)
        = ErrorResponse 500 "Internal Server Error").
Proof.
  split.
  - intros now d doc e Hfault Hin Hraise.
    unfold GET_api_events, list_events.
    rewrite get_documents_reachable by exact Hfault. cbn [propagate bind].
    rewrite (filter_ext_bool _ _ _ (matches_upcoming now)), loop_traverse.
    destruct (traverse_propagate_raises (event_card now) _ doc e Hin Hraise) as [e' He'].
    unfold listed_events in He'. rewrite He'. reflexivity.
  - intros event_id d doc e Hfault Hin Hraise.
    unfold GET_api_events_products, list_event_products.
    rewrite get_documents_reachable by exact Hfault. cbn [propagate bind].
    rewrite (filter_ext_bool _ _ _ (matches_refers_to event_id)), loop_traverse.
    destruct (traverse_propagate_raises product_card _ doc e Hin Hraise) as [e' He'].
    unfold listed_products in He'. rewrite He'. reflexivity.
Qed.

(** X7. The card of an event is read from eight keys of the document and
    from nothing else: two documents that agree on [_id], [title],
    [subtitle], [banner_url], [start_at], [end_at], [status] and
    [categories] have the same card, or fail alike, whatever their other
    fields ([brand_ids], timestamps, anything else) hold. *)
Theorem event_card_reads_eight_keys (now : datetime) (doc doc' : document) :
  (forall key, key ∈ event_card_keys -> doc !! key = doc' !! key) ->
  event_card now doc = event_card now doc'.
Proof.
  intros Hsame. unfold event_card, get, get_default.
  rewrite (Hsame "_id"), (Hsame "title"), (Hsame "subtitle"), (Hsame "banner_url"),
    (Hsame "start_at"), (Hsame "end_at"), (Hsame "status"), (Hsame "categories");
    [reflexivity | .. ]; unfold event_card_keys; set_solver.
Qed.

(** X8. The fields of a card are the stored ones: the text of the
    [ObjectId] (24 characters) as [id], or ["None"] when [_id] is missing;
    the stored [title], [status], [start_at], [end_at] and [categories];
    and for [subtitle] and [banner_url] the stored string, or nothing when
    the key is missing or null. *)
Theorem event_card_passthrough (now : datetime) (doc : document) (card : EventCard.t) :
  event_card now doc = Return card ->
  (forall o, doc !! "_id" = Some (VObjectId o) ->
     EventCard.id card = oid_str o /\ String.length (EventCard.id card) = 24%nat)
  /\ (doc !! "_id" = None -> EventCard.id card = "None")
  /\ (forall t, doc !! "title" = Some (VStr t) -> EventCard.title card = t)
  /\ (forall s, doc !! "status" = Some (VStr s) -> EventCard.status card = s)
  /\ (forall t, doc !! "start_at" = Some (VDate t) -> EventCard.start_at card = t)
  /\ (forall t, doc !! "end_at" = Some (VDate t) -> EventCard.end_at card = t)
  /\ (forall l, doc !! "categories" = Some (dump_list_str l) ->
        EventCard.categories card = l)
  /\ (forall s, doc !! "subtitle" = Some (VStr s) -> EventCard.subtitle card = Some s)
  /\ (doc !! "subtitle" = None \/ doc !! "subtitle" = Some VNone ->
      EventCard.subtitle card = None)
  /\ (forall s, doc !! "banner_url" = Some (VStr s) -> EventCard.banner_url card = Some s)
  /\ (doc !! "banner_url" = None \/ doc !! "banner_url" = Some VNone ->
      EventCard.banner_url card = None).
Proof.
  intros Hcard.
  destruct (event_card_fields now doc card Hcard) as (Hid & Ht & Hsa & Hea & Hst & Hc).
  destruct (event_card_optional_fields now doc card Hcard) as (Hsub & Hban).
  unfold get, get_default in *.
  split; [|split; [|split; [|split; [|split; [|split; [|split; [|split; [|split; [|split]]]]]]]]].
  - intros o Ho. rewrite Ho in Hid. simpl in Hid. rewrite Hid.
    split; [reflexivity | apply oid_str_length].
  - intros Hnone. rewrite Hnone in Hid. exact Hid.
  - intros t Hdoc. rewrite Hdoc in Ht. simpl in Ht. congruence.
  - intros s Hdoc. rewrite Hdoc in Hst. simpl in Hst. congruence.
  - intros t Hdoc. rewrite Hdoc in Hsa. simpl in Hsa. congruence.
  - intros t Hdoc. rewrite Hdoc in Hea. simpl in Hea. congruence.
  - intros l Hdoc. rewrite Hdoc in Hc. cbn [from_option id] in Hc.
    rewrite validate_list_str_dump in Hc. congruence.
  - intros s Hdoc. rewrite Hdoc in Hsub. simpl in Hsub.
    destruct (EventCard.subtitle card); simpl in Hsub; congruence.
  - intros [Hdoc | Hdoc]; rewrite Hdoc in Hsub; simpl in Hsub;
      destruct (EventCard.subtitle card); simpl in Hsub; congruence.
  - intros s Hdoc. rewrite Hdoc in Hban. simpl in Hban.
    destruct (EventCard.banner_url card); simpl in Hban; congruence.
  - intros [Hdoc | Hdoc]; rewrite Hdoc in Hban; simpl in Hban;
      destruct (EventCard.banner_url card); simpl in Hban; congruence.
Qed.

End EventCards.


Lemma listing_all_or_nothing_witness :
  sample_event 1 200 ∈ listed_events 100 flawed_agenda
  /\ (exists card, @event_card plain_runtime 100 (sample_event 1 200) = Return card)
  /\ @GET_api_events plain_runtime 100 (Some flawed_agenda)
     = ErrorResponse 500 "Internal Server Error".
Proof.
  split; [apply list_elem_of_lookup; exists 0%nat; reflexivity|].
  split; [eexists; vm_compute; reflexivity|].
  destruct (@listing_all_or_nothing plain_runtime) as [Hevents _].
  apply (Hevents 100 flawed_agenda untitled_event (ValidationError "title")).
  - reflexivity.
  - apply list_elem_of_lookup. exists 1%nat. reflexivity.
  - vm_compute. reflexivity.
Defined.

Lemma event_card_reads_eight_keys_witness :
  @event_card plain_runtime 100 (<["brand_ids" := VList [VStr "b1"]]> (sample_event 1 200))
  = @event_card plain_runtime 100 (sample_event 1 200).
Proof.
  apply (@event_card_reads_eight_keys plain_runtime).
  intros key Hkey. apply lookup_insert_ne. intros <-.
  unfold event_card_keys in Hkey.
  repeat (apply elem_of_cons in Hkey as [Hkey | Hkey]; [discriminate|]).
  inversion Hkey.
Defined.

Lemma event_card_passthrough_witness :
  exists card,
    @event_card plain_runtime 100 (sample_event 1 200) = Return card
    /\ EventCard.id card = "000000000000000000000001"
    /\ EventCard.title card = "Vente flash"
    /\ EventCard.end_at card = 200
    /\ EventCard.subtitle card = None.
Proof.
  assert (exists card, @event_card plain_runtime 100 (sample_event 1 200) = Return card)
    as [card Hcard] by (eexists; vm_compute; reflexivity).
  exists card. split; [exact Hcard|].
  destruct (@event_card_passthrough plain_runtime 100 _ card Hcard)
    as (Hid & _ & Ht & _ & _ & Hea & _ & _ & Hsub & _).
  split; [apply (Hid 1%N); reflexivity|].
  split; [apply Ht; reflexivity|].
  split; [apply Hea; reflexivity|].
  apply Hsub. left. reflexivity.
Defined.

Section ListingFacts.
Context `{Runtime}.


(** X10. Every card that [GET /api/events] returns carries an [end_at] at
    or after the current time. *)
Theorem list_events_cards_upcoming (now : datetime) (d : database)
    (cards : list EventCard.t) :
  fault d = None ->
  list_events now (Some d) = Return cards ->
  Forall (fun card => now <= EventCard.end_at card) cards.
Proof.
  intros Hfault Hret. apply list_events_reachable in Hret; [|exact Hfault].
  apply Forall_lookup. intros i card Hi.
  destruct (Forall2_lookup_r _ _ _ _ _ Hret Hi) as (doc & Hdoc & Hcard).
  apply list_elem_of_lookup_2, listed_events_upcoming in Hdoc as [_ Hup].
  apply upcoming_spec in Hup as (t & Hend & Hle).
  rewrite (event_card_end_at now t doc card Hend Hcard). exact Hle.
Qed.


End ListingFacts.


Lemma list_events_cards_upcoming_witness :
  fault agenda = None
  /\ exists cards,
       @list_events plain_runtime 100 (Some agenda) = Return cards
       /\ Forall (fun card => 100 <= EventCard.end_at card) cards.
Proof.
  split; [reflexivity|].
  assert (exists cards, @list_events plain_runtime 100 (Some agenda) = Return cards)
    as [cards Hcards] by (eexists; vm_compute; reflexivity).
  exists cards. split; [exact Hcards|].
  apply (@list_events_cards_upcoming plain_runtime 100 agenda cards eq_refl Hcards).
Defined.

Section ProductCards.
Context `{Runtime}.

Lemma py_float_zero : py_float (VInt 0) = Return PrimFloat.zero.
Proof. vm_compute. reflexivity. Qed.

(** The fields of a card of a product, read back from the document. *)
Lemma product_card_fields (doc : document) (card : ProductCard.t) :
  product_card doc = Return card ->
  ProductCard.id card = py_str (get doc "_id")
  /\ validate_str "title" (get_default doc "title" (VStr "")) = Return (ProductCard.title card)
  /\ py_float (get_default doc "price_original" (VInt 0))
     = Return (ProductCard.price_original card)
  /\ py_float (get_default doc "price_sale" (VInt 0)) = Return (ProductCard.price_sale card)
  /\ py_int (get_default doc "stock" (VInt 0)) = Return (ProductCard.stock card).
Proof.
  rewrite product_card_eq. intros Hcard.
  apply bind_Return in Hcard as (po & Hpo & Hcard).
  apply bind_Return in Hcard as (ps & Hps & Hcard).
  apply bind_Return in Hcard as (v & Hv & Hcard).
  apply bind_Return in Hcard as (n & Hn & Hcard).
  apply bind_Return in Hcard as (t & Ht & Hcard).
  apply bind_Return in Hcard as (o & Ho & Hcard).
  injection Hcard as <-. simpl. auto 10.
Qed.

(** X12. The product card puts defaults in place of missing fields: a
    missing [title] reads the empty string, a missing [price_original] or
    [price_sale] reads 0.0, a missing [stock] reads 0, and a missing [_id]
    gives the identifier ["None"]. *)
Theorem product_card_defaults (doc : document) (card : ProductCard.t) :
  product_card doc = Return card ->
  (doc !! "title" = None -> ProductCard.title card = "")
  /\ (doc !! "price_original" = None -> ProductCard.price_original card = PrimFloat.zero)
  /\ (doc !! "price_sale" = None -> ProductCard.price_sale card = PrimFloat.zero)
  /\ (doc !! "stock" = None -> ProductCard.stock card = 0)
  /\ (doc !! "_id" = None -> ProductCard.id card = "None").
Proof.
  intros Hcard.
  destruct (product_card_fields doc card Hcard) as (Hid & Ht & Hpo & Hps & Hst).
  unfold get, get_default in *.
  split; [|split; [|split; [|split]]]; intros Hnone; rewrite Hnone in *.
  - simpl in Ht. congruence.
  - cbn [from_option id] in Hpo. rewrite py_float_zero in Hpo. congruence.
  - cbn [from_option id] in Hps. rewrite py_float_zero in Hps. congruence.
  - simpl in Hst. congruence.
  - exact Hid.
Qed.

(** X13. The product card enforces none of the bounds of [SaleProduct]: a
    stored integer [stock] and stored float prices are returned as they are,
    negative ones included. *)
Theorem product_card_passthrough (doc : document) (card : ProductCard.t) :
  product_card doc = Return card ->
  (forall n, doc !! "stock" = Some (VInt n) -> ProductCard.stock card = n)
  /\ (forall x, doc !! "price_original" = Some (VFloat x) ->
        ProductCard.price_original card = x)
  /\ (forall x, doc !! "price_sale" = Some (VFloat x) -> ProductCard.price_sale card = x)
  /\ (forall t, doc !! "title" = Some (VStr t) -> ProductCard.title card = t)
  /\ (forall o, doc !! "_id" = Some (VObjectId o) -> ProductCard.id card = oid_str o).
Proof.
  intros Hcard.
  destruct (product_card_fields doc card Hcard) as (Hid & Ht & Hpo & Hps & Hst).
  unfold get, get_default in *.
  split; [|split; [|split; [|split]]]; intros a Hdoc; rewrite Hdoc in *;
    simpl in *; congruence.
Qed.

(** X14. An [images] field that is not a list.  A value that tests false
    (null, [0], [False], the empty string, the empty dict) reads as no
    image; a non-empty string gives its first character as the image; any
    other value that tests true has no element [0] and leaves the product
    without a card. *)
Theorem product_card_images_not_a_list (doc : document) (v : value) :
  doc !! "images" = Some v ->
  (truthy v = false ->
     forall card, product_card doc = Return card -> ProductCard.image card = None)
  /\ (forall s card,
        v = VStr s -> s <> "" -> product_card doc = Return card ->
        ProductCard.image card = Some (take_chars 1 s))
  /\ (truthy v = true -> sequence_like v = false ->
      exists e, product_card doc = Raise e).
Proof.
  intros Himages. split; [|split].
  - intros Hfalse card Hcard. apply product_card_image_arg in Hcard.
    unfold get, py_or in Hcard. rewrite Himages in Hcard. cbn [from_option id] in Hcard.
    rewrite Hfalse in Hcard. simpl in Hcard.
    destruct (ProductCard.image card); simpl in Hcard; congruence.
  - intros s card -> Hne Hcard. apply product_card_image_arg in Hcard.
    unfold get, py_or in Hcard. rewrite Himages in Hcard.
    destruct s as [|c s]; [contradiction|].
    cbn [from_option id truthy String.eqb negb subscript0] in Hcard.
    destruct (ProductCard.image card); cbn [dump_optional_str] in Hcard; congruence.
  - intros Htrue Hseq.
    destruct (product_card doc) as [card|e] eqn:Hcard; [exfalso | eexists; reflexivity].
    apply product_card_image_arg in Hcard.
    unfold get, py_or in Hcard. rewrite Himages in Hcard. cbn [from_option id] in Hcard.
    rewrite Htrue in Hcard. destruct v; simpl in Hseq, Hcard; discriminate.
Qed.

(** X15. The card of a product is read from six keys of the document and
    from nothing else: two documents that agree on [_id], [title],
    [price_original], [price_sale], [images] and [stock] have the same card,
    or fail alike; [description], [sku], [brand_id] and [attributes] play no
    part. *)
Theorem product_card_reads_six_keys (doc doc' : document) :
  (forall key, key ∈ product_card_keys -> doc !! key = doc' !! key) ->
  product_card doc = product_card doc'.
Proof.
  intros Hsame. unfold product_card, get, get_default.
  rewrite (Hsame "_id"), (Hsame "title"), (Hsame "price_original"),
    (Hsame "price_sale"), (Hsame "images"), (Hsame "stock");
    [reflexivity | .. ]; unfold product_card_keys; set_solver.
Qed.

End ProductCards.

Lemma product_card_defaults_witness :
  exists card,
    @product_card plain_runtime (kwargs [("_id", VObjectId 5); ("sale_event_id", VStr "e1")])
    = Return card
    /\ ProductCard.title card = ""
    /\ ProductCard.price_original card = PrimFloat.zero
    /\ ProductCard.stock card = 0.
Proof.
  assert (exists card,
            @product_card plain_runtime
              (kwargs [("_id", VObjectId 5); ("sale_event_id", VStr "e1")]) = Return card)
    as [card Hcard] by (eexists; vm_compute; reflexivity).
  exists card. split; [exact Hcard|].
  destruct (@product_card_defaults plain_runtime _ card Hcard) as (Ht & Hpo & _ & Hst & _).
  split; [apply Ht; reflexivity|]. split; [apply Hpo; reflexivity | apply Hst; reflexivity].
Defined.

Lemma product_card_passthrough_witness :
  exists card,
    @product_card plain_runtime oversold_product = Return card
    /\ ProductCard.stock card = -5
    /\ ProductCard.price_original card = PrimFloat.opp PrimFloat.one.
Proof.
  assert (exists card, @product_card plain_runtime oversold_product = Return card)
    as [card Hcard] by (eexists; vm_compute; reflexivity).
  exists card. split; [exact Hcard|].
  destruct (@product_card_passthrough plain_runtime _ card Hcard) as (Hst & Hpo & _).
  split; [apply Hst; reflexivity | apply Hpo; reflexivity].
Defined.

Lemma product_card_images_not_a_list_witness :
  (exists card,
     @product_card plain_runtime (<["images" := VStr "é.png"]> oversold_product)
     = Return card
     /\ ProductCard.image card = Some "é")
  /\ (exists e,
        @product_card plain_runtime (<["images" := VInt 7]> oversold_product) = Raise e).
Proof.
  split.
  - assert (exists card,
              @product_card plain_runtime (<["images" := VStr "é.png"]> oversold_product)
              = Return card) as [card Hcard] by (eexists; vm_compute; reflexivity).
    exists card. split; [exact Hcard|].
    destruct (@product_card_images_not_a_list plain_runtime
                (<["images" := VStr "é.png"]> oversold_product) (VStr "é.png"))
      as (_ & Hstr & _); [reflexivity|].
    apply (Hstr "é.png" card eq_refl); [discriminate | exact Hcard].
  - destruct (@product_card_images_not_a_list plain_runtime
                (<["images" := VInt 7]> oversold_product) (VInt 7))
      as (_ & _ & Hraise); [reflexivity|].
    apply Hraise; reflexivity.
Defined.

Lemma product_card_reads_six_keys_witness :
  @product_card plain_runtime (<["sku" := VStr "RH-1"]> oversold_product)
  = @product_card plain_runtime oversold_product.
Proof.
  apply (@product_card_reads_six_keys plain_runtime).
  intros key Hkey. apply lookup_insert_ne. intros <-.
  unfold product_card_keys in Hkey.
  repeat (apply elem_of_cons in Hkey as [Hkey | Hkey]; [discriminate|]).
  inversion Hkey.
Defined.

(** ** Further properties: subscribing *)

Lemma create_document_inserted (name : string) (data : document) (d : database) :
  fault d = None ->
  create_document name data (Some d)
  = (Return (oid_str (next_id d)), Some (inserted name data d)).
Proof. intros Hfault. unfold create_document. rewrite Hfault. reflexivity. Qed.

Lemma collection_inserted (name : string) (data : document) (d : database) :
  collection name (inserted name data d) = (collection name d ++ [stored_as data d])%list.
Proof. unfold collection at 1. simpl. rewrite lookup_insert_eq. reflexivity. Qed.

Lemma collection_inserted_other (name other : string) (data : document) (d : database) :
  other <> name -> collection other (inserted name data d) = collection other d.
Proof.
  intros Hne. unfold collection. simpl. rewrite lookup_insert_ne by congruence.
  reflexivity.
Qed.

Section SubscribeFacts.
Context `{Runtime}.

(** The answer to a valid request on a reachable database. *)
Lemma POST_api_subscribe_reachable (body : document) (payload : SubscribePayload.t)
    (sub : Subscriber.t) (d : database) :
  SubscribePayload_init body = Return payload ->
  Subscriber_init (SubscribePayload_model_dump payload) = Return sub ->
  fault d = None ->
  POST_api_subscribe body (Some d)
  = (JSONResponse 200 (kwargs [("ok", VBool true); ("id", VStr (oid_str (next_id d)))]),
     Some (inserted "subscriber" (Subscriber_model_dump sub) d)).
Proof.
  intros Hbody Hsub Hfault.
  apply (POST_api_subscribe_inserted body payload sub); [assumption..|].
  apply create_document_inserted. exact Hfault.
Qed.

(** X16. Validation reads the five fields of [SubscribePayload] and
    ignores every other field of the body: two bodies that agree on [email],
    [first_name], [sale_event_id], [source] and [accepted_marketing] are
    accepted or rejected alike, get the same status and leave the same
    database, and when they are accepted they get the same answer. *)
Theorem POST_api_subscribe_reads_five_keys (body body' : document) (db : handle) :
  (forall key, key ∈ subscribe_keys -> body !! key = body' !! key) ->
  SubscribePayload_init body = SubscribePayload_init body'
  /\ status_of (POST_api_subscribe body db).1 = status_of (POST_api_subscribe body' db).1
  /\ (POST_api_subscribe body db).2 = (POST_api_subscribe body' db).2
  /\ (forall payload,
        SubscribePayload_init body = Return payload ->
        POST_api_subscribe body db = POST_api_subscribe body' db).
Proof.
  intros Hsame.
  assert (SubscribePayload_init body = SubscribePayload_init body') as Hinit.
  { unfold SubscribePayload_init, required, optional.
    rewrite (Hsame "email"), (Hsame "first_name"), (Hsame "sale_event_id"),
      (Hsame "source"), (Hsame "accepted_marketing");
      [reflexivity | .. ]; unfold subscribe_keys; set_solver. }
  split; [exact Hinit|]. unfold POST_api_subscribe. rewrite <- Hinit.
  destruct (SubscribePayload_init body) as [payload|e].
  - split; [reflexivity|]. split; reflexivity.
  - split; [reflexivity|]. split; [reflexivity | discriminate].
Qed.

(** X17. The [Subscriber] the handler hands to the insert repeats the
    payload: [first_name], [sale_event_id], [source] and
    [accepted_marketing] are the payload's, and the address is what the
    validator answers on the address of the payload; the [Subscriber] is
    built exactly when the validator accepts that address. *)
Theorem Subscriber_repeats_payload (payload : SubscribePayload.t) :
  (forall sub,
     Subscriber_init (SubscribePayload_model_dump payload) = Return sub ->
     validate_email (SubscribePayload.email payload) = Some (Subscriber.email sub)
     /\ Subscriber.first_name sub = SubscribePayload.first_name payload
     /\ Subscriber.sale_event_id sub = SubscribePayload.sale_event_id payload
     /\ Subscriber.source sub = SubscribePayload.source payload
     /\ Subscriber.accepted_marketing sub = SubscribePayload.accepted_marketing payload)
  /\ (forall e,
        validate_email (SubscribePayload.email payload) = Some e ->
        exists sub,
          Subscriber_init (SubscribePayload_model_dump payload) = Return sub
          /\ Subscriber.email sub = e)
  /\ (validate_email (SubscribePayload.email payload) = None ->
      exists e, Subscriber_init (SubscribePayload_model_dump payload) = Raise e).
Proof.
  rewrite Subscriber_of_payload. split; [|split].
  - intros sub Hsub. apply bind_Return in Hsub as (e & He & Hsub).
    injection Hsub as <-. simpl.
    destruct (validate_email (SubscribePayload.email payload)); [|discriminate].
    injection He as ->. auto.
  - intros e ->. eexists. split; reflexivity.
  - intros ->. eexists. reflexivity.
Qed.

(** X18. The answers of [POST /api/subscribe].  The status is 200, 422 or
    500; it is 422 exactly when the body fails the validation of
    [SubscribePayload]; and a body that fails validation, or whose
    [Subscriber] cannot be built, leaves the database as the request found
    it, the insert not being called. *)
Theorem POST_api_subscribe_answers (body : document) (db : handle) :
  ((exists content, (POST_api_subscribe body db).1 = JSONResponse 200 content)
   \/ (exists detail, (POST_api_subscribe body db).1 = ErrorResponse 422 detail)
   \/ (exists detail, (POST_api_subscribe body db).1 = ErrorResponse 500 detail))
  /\ ((exists detail, (POST_api_subscribe body db).1 = ErrorResponse 422 detail)
      <-> exists e, SubscribePayload_init body = Raise e)
  /\ ((exists e, SubscribePayload_init body = Raise e) ->
      (POST_api_subscribe body db).2 = db)
  /\ (forall payload e,
        SubscribePayload_init body = Return payload ->
        Subscriber_init (SubscribePayload_model_dump payload) = Raise e ->
        POST_api_subscribe body db = (ErrorResponse 500 "Internal Server Error", db)).
Proof.
  unfold POST_api_subscribe, subscribe.
  destruct (SubscribePayload_init body) as [payload|e0].
  - split; [|split; [|split]].
    + destruct (Subscriber_init (SubscribePayload_model_dump payload)) as [sub|e1];
        cbn [fst snd respond]; [|right; right; eexists; reflexivity].
      destruct (create_document "subscriber" (Subscriber_model_dump sub) db)
        as [[inserted_id|e2] db']; cbn [fst snd respond];
        [left | right; right]; eexists; reflexivity.
    + split; [|intros [e [=]]].
      destruct (Subscriber_init (SubscribePayload_model_dump payload)) as [sub|e1];
        cbn [fst snd respond]; [|intros [detail [=]]].
      destruct (create_document "subscriber" (Subscriber_model_dump sub) db)
        as [[inserted_id|e2] db']; cbn [fst snd respond]; intros [detail [=]].
    + intros [e [=]].
    + intros payload' e [= <-] Hsub. rewrite Hsub. reflexivity.
  - cbn [fst snd].
    split; [right; left; eexists; reflexivity|].
    split; [split; intros _; eexists; reflexivity|].
    split; [reflexivity | discriminate].
Qed.

End SubscribeFacts.

Section SubscribeTwice.
Context `{Runtime}.

(** X19. The address is validated twice, once for [SubscribePayload] and
    once more for [Subscriber], outside the [try].  When the validator
    refuses the address it has itself normalized, the request is answered
    with the plain error 500 and nothing is stored; when it accepts it, a
    request on a reachable database succeeds and the stored address is the
    result of the second validation. *)
Theorem subscribe_validates_twice (body : document) (payload : SubscribePayload.t) :
  SubscribePayload_init body = Return payload ->
  (validate_email (SubscribePayload.email payload) = None ->
     forall db,
       POST_api_subscribe body db = (ErrorResponse 500 "Internal Server Error", db))
  /\ (forall e,
        validate_email (SubscribePayload.email payload) = Some e ->
        forall d, fault d = None ->
          exists content d' stored,
            POST_api_subscribe body (Some d) = (JSONResponse 200 content, Some d')
            /\ collection "subscriber" d' = (collection "subscriber" d ++ [stored])%list
            /\ stored !! "email" = Some (VStr e)).
Proof.
  intros Hbody. split.
  - intros Hrefused db. unfold POST_api_subscribe, subscribe.
    rewrite Hbody, Subscriber_of_payload, Hrefused. reflexivity.
  - intros e Haccepted d Hfault.
    assert (Subscriber_init (SubscribePayload_model_dump payload)
            = Return (Subscriber.Build e (SubscribePayload.first_name payload)
                        (SubscribePayload.sale_event_id payload)
                        (SubscribePayload.source payload)
                        (SubscribePayload.accepted_marketing payload))) as Hsub.
    { rewrite Subscriber_of_payload, Haccepted. reflexivity. }
    eexists _, _, _.
    split; [apply (POST_api_subscribe_reachable body payload _ d Hbody Hsub Hfault)|].
    split; [apply collection_inserted | reflexivity].
Qed.

(** X20. Nothing is deduplicated: the same valid body sent twice to a
    reachable database is answered 200 both times, and the collection ends
    with two documents that hold the same address. *)
Theorem subscribe_twice (body : document) (payload : SubscribePayload.t)
    (sub : Subscriber.t) (d : database) :
  SubscribePayload_init body = Return payload ->
  Subscriber_init (SubscribePayload_model_dump payload) = Return sub ->
  fault d = None ->
  exists content1 d1 content2 d2 first second,
    POST_api_subscribe body (Some d) = (JSONResponse 200 content1, Some d1)
    /\ POST_api_subscribe body (Some d1) = (JSONResponse 200 content2, Some d2)
    /\ collection "subscriber" d2 = (collection "subscriber" d ++ [first; second])%list
    /\ first !! "email" = Some (VStr (Subscriber.email sub))
    /\ second !! "email" = Some (VStr (Subscriber.email sub)).
Proof.
  intros Hbody Hsub Hfault.
  pose proof (POST_api_subscribe_reachable body payload sub d Hbody Hsub Hfault) as Hfirst.
  pose proof (POST_api_subscribe_reachable body payload sub
                (inserted "subscriber" (Subscriber_model_dump sub) d) Hbody Hsub eq_refl)
    as Hsecond.
  eexists _, _, _, _, _, _.
  split; [exact Hfirst|]. split; [exact Hsecond|].
  split; [rewrite !collection_inserted, <- app_assoc; reflexivity|].
  destruct sub; split; reflexivity.
Qed.

End SubscribeTwice.

Lemma POST_api_subscribe_reads_five_keys_witness :
  @POST_api_subscribe plain_runtime (<["utm" := VStr "ad"]> sample_body) (Some empty_database)
  = @POST_api_subscribe plain_runtime sample_body (Some empty_database)
  /\ status_of (@POST_api_subscribe plain_runtime (kwargs [("utm", VStr "ad")]) None).1
     = status_of (@POST_api_subscribe plain_runtime ∅ None).1.
Proof.
  split.
  - symmetry.
    destruct (@POST_api_subscribe_reads_five_keys plain_runtime sample_body
                (<["utm" := VStr "ad"]> sample_body) (Some empty_database))
      as (_ & _ & _ & Hsame).
    + intros key Hkey. symmetry. apply lookup_insert_ne. intros <-.
      unfold subscribe_keys in Hkey.
      repeat (apply elem_of_cons in Hkey as [Hkey | Hkey]; [discriminate|]).
      inversion Hkey.
    + apply (Hsame sample_payload). vm_compute. reflexivity.
  - destruct (@POST_api_subscribe_reads_five_keys plain_runtime
                (kwargs [("utm", VStr "ad")]) ∅ None) as (_ & Hstatus & _).
    + intros key Hkey. unfold subscribe_keys in Hkey.
      repeat (apply elem_of_cons in Hkey as [-> | Hkey]; [reflexivity|]).
      inversion Hkey.
    + exact Hstatus.
Defined.

Lemma Subscriber_repeats_payload_witness :
  exists sub,
    @Subscriber_init plain_runtime (SubscribePayload_model_dump sample_payload) = Return sub
    /\ Subscriber.email sub = "a@b.com"
    /\ Subscriber.source sub = Some "landing"
    /\ Subscriber.accepted_marketing sub = true.
Proof.
  destruct (@Subscriber_repeats_payload plain_runtime sample_payload) as (Hcopy & Hbuilt & _).
  destruct (Hbuilt "a@b.com" eq_refl) as (sub & Hsub & Hemail).
  exists sub. split; [exact Hsub|]. split; [exact Hemail|].
  destruct (Hcopy sub Hsub) as (_ & _ & _ & Hsource & Hmarketing).
  split; [exact Hsource | exact Hmarketing].
Defined.

Lemma subscribe_validates_twice_witness :
  (exists content d' stored,
     @POST_api_subscribe plain_runtime sample_body (Some empty_database)
     = (JSONResponse 200 content, Some d')
     /\ collection "subscriber" d' = [stored]
     /\ stored !! "email" = Some (VStr "a@b.com"))
  /\ @POST_api_subscribe fussy_runtime (kwargs [("email", VStr "A@b.com")])
       (Some empty_database)
     = (ErrorResponse 500 "Internal Server Error", Some empty_database).
Proof.
  split.
  - destruct (@subscribe_validates_twice plain_runtime sample_body sample_payload)
      as [_ Haccepted]; [vm_compute; reflexivity|].
    destruct (Haccepted "a@b.com" eq_refl empty_database eq_refl)
      as (content & d' & stored & Hpost & Hcoll & Hemail).
    exists content, d', stored. auto.
  - destruct (@subscribe_validates_twice fussy_runtime (kwargs [("email", VStr "A@b.com")])
                sample_payload) as [Hrefused _]; [vm_compute; reflexivity|].
    apply Hrefused. reflexivity.
Defined.

Lemma subscribe_twice_witness :
  exists content1 d1 content2 d2,
    @POST_api_subscribe plain_runtime sample_body (Some empty_database)
    = (JSONResponse 200 content1, Some d1)
    /\ @POST_api_subscribe plain_runtime sample_body (Some d1)
       = (JSONResponse 200 content2, Some d2)
    /\ length (collection "subscriber" d2) = 2%nat.
Proof.
  destruct (@subscribe_twice plain_runtime sample_body sample_payload sample_subscriber
              empty_database)
    as (c1 & d1 & c2 & d2 & s1 & s2 & H1 & H2 & Hcoll & _).
  - vm_compute. reflexivity.
  - vm_compute. reflexivity.
  - reflexivity.
  - exists c1, d1, c2, d2. rewrite Hcoll. auto.
Defined.

(** ** Further properties: the schemas *)

Section SchemaFacts.
Context `{Runtime}.

(** [SaleProduct] on arguments that give every field. *)
Lemma SaleProduct_init_kwargs
    (sale_event_id brand_id title description images price_original price_sale stock
       sku attributes : value) :
  SaleProduct_init
    (kwargs [("sale_event_id", sale_event_id); ("brand_id", brand_id); ("title", title);
             ("description", description); ("images", images);
             ("price_original", price_original); ("price_sale", price_sale);
             ("stock", stock); ("sku", sku); ("attributes", attributes)])
  = (se <- validate_str "sale_event_id" sale_event_id ;;
     b <- validate_optional validate_str "brand_id" brand_id ;;
     t <- validate_str "title" title ;;
     de <- validate_optional validate_str "description" description ;;
     im <- validate_list validate_str "images" images ;;
     po <- constrained validate_float (ge_float PrimFloat.zero) "price_original"
             price_original ;;
     ps <- constrained validate_float (ge_float PrimFloat.zero) "price_sale" price_sale ;;
     st <- constrained validate_int (ge_int 0) "stock" stock ;;
     sk <- validate_optional validate_str "sku" sku ;;
     at' <- validate_optional validate_dict "attributes" attributes ;;
     Return (SaleProduct.Build se b t de im po ps st sk at')).
Proof. reflexivity. Qed.

(** [SaleEvent] on arguments that give every field. *)
Lemma SaleEvent_init_kwargs
    (title subtitle start_at end_at banner_url brand_ids categories status : value) :
  SaleEvent_init
    (kwargs [("title", title); ("subtitle", subtitle); ("start_at", start_at);
             ("end_at", end_at); ("banner_url", banner_url); ("brand_ids", brand_ids);
             ("categories", categories); ("status", status)])
  = (t <- validate_str "title" title ;;
     s <- validate_optional validate_str "subtitle" subtitle ;;
     sa <- validate_datetime "start_at" start_at ;;
     ea <- validate_datetime "end_at" end_at ;;
     b <- validate_optional validate_str "banner_url" banner_url ;;
     bi <- validate_list validate_str "brand_ids" brand_ids ;;
     c <- validate_list validate_str "categories" categories ;;
     st <- validate_str "status" status ;;
     Return (SaleEvent.Build t s sa ea b bi c st)).
Proof. reflexivity. Qed.

Lemma validate_optional_dict_dump (field : string) (o : option (list (string * value))) :
  validate_optional validate_dict field (from_option VDict VNone o) = Return o.
Proof. destruct o; reflexivity. Qed.

(** X21. A [SaleProduct] record, dumped and validated again, comes back
    unchanged exactly when its prices are at least 0 and its stock is not
    negative; a record outside the bounds does not survive the round
    trip. *)
Theorem SaleProduct_round_trip (p : SaleProduct.t) :
  SaleProduct_init (SaleProduct_model_dump p) = Return p
  <-> PrimFloat.leb PrimFloat.zero (SaleProduct.price_original p) = true
      /\ PrimFloat.leb PrimFloat.zero (SaleProduct.price_sale p) = true
      /\ 0 <= SaleProduct.stock p.
Proof.
  assert (SaleProduct_init (SaleProduct_model_dump p)
          = (po <- ge_float PrimFloat.zero "price_original" (SaleProduct.price_original p) ;;
             ps <- ge_float PrimFloat.zero "price_sale" (SaleProduct.price_sale p) ;;
             st <- ge_int 0 "stock" (SaleProduct.stock p) ;;
             Return (SaleProduct.Build (SaleProduct.sale_event_id p) (SaleProduct.brand_id p)
                       (SaleProduct.title p) (SaleProduct.description p)
                       (SaleProduct.images p) po ps st (SaleProduct.sku p)
                       (SaleProduct.attributes p)))) as Hinit.
  { unfold SaleProduct_model_dump. rewrite SaleProduct_init_kwargs.
    rewrite !validate_optional_str_of_dump, validate_list_str_dump,
      validate_optional_dict_dump.
    reflexivity. }
  rewrite Hinit. clear Hinit. split.
  - intros Hp.
    apply bind_Return in Hp as (po & Hpo & Hp).
    apply bind_Return in Hp as (ps & Hps & Hp).
    apply bind_Return in Hp as (st & Hst & Hp).
    apply ge_float_Return in Hpo as [_ Hpo]. apply ge_float_Return in Hps as [_ Hps].
    apply ge_int_Return in Hst as [_ Hst]. auto.
  - intros (Hpo & Hps & Hst). unfold ge_float, ge_int. rewrite Hpo, Hps.
    destruct (Z.leb_spec 0 (SaleProduct.stock p)); [|lia].
    destruct p; reflexivity.
Qed.

(** X22. A [SaleEvent] and a [Brand] carry no constraint beyond the types of
    their fields: every record, dumped and validated again, comes back
    unchanged, whatever its [status] says and also when its [end_at] is
    before its [start_at]. *)
Theorem SaleEvent_Brand_round_trip :
  (forall ev, SaleEvent_init (SaleEvent_model_dump ev) = Return ev)
  /\ (forall b, Brand_init (Brand_model_dump b) = Return b).
Proof.
  split.
  - intros ev. unfold SaleEvent_model_dump. rewrite SaleEvent_init_kwargs.
    rewrite !validate_optional_str_of_dump, !validate_list_str_dump.
    destruct ev; reflexivity.
  - intros [n [d|] [l|] [o|] [w|]]; reflexivity.
Qed.

End SchemaFacts.

(** Splits a successful chain of validations into its steps. *)
Ltac steps H :=
  repeat (let x := fresh "x" in
          let Hx := fresh "Hx" in
          apply bind_Return in H as (x & Hx & H)).

(** Closes a goal where a required field was validated although the
    arguments do not give it. *)
Ltac missing_field :=
  match goal with
  | Hr : required _ ?args ?field = Return _, Hn : ?args !! ?field = None |- _ =>
      unfold required in Hr; rewrite Hn in Hr; discriminate Hr
  end.

Section Required.
Context `{Runtime}.

(** X23. A required field cannot be left out: arguments without
    [sale_event_id], [title], [price_original], [price_sale] or [stock] are
    no [SaleProduct]; without [sale_event_id], [product_id] or [email] no
    [Reservation]; without [title], [start_at] or [end_at] no [SaleEvent];
    without [name] or [email] no [User]; without [name] no [Brand]; without
    [email] no [Subscriber]. *)
Theorem required_fields (args : document) (field : string) :
  args !! field = None ->
  (field ∈ SaleProduct_required -> exists e, SaleProduct_init args = Raise e)
  /\ (field ∈ Reservation_required -> exists e, Reservation_init args = Raise e)
  /\ (field ∈ SaleEvent_required -> exists e, SaleEvent_init args = Raise e)
  /\ (field ∈ User_required -> exists e, User_init args = Raise e)
  /\ (field = "name" -> exists e, Brand_init args = Raise e)
  /\ (field = "email" -> exists e, Subscriber_init args = Raise e).
Proof.
  intros Hnone. split; [|split; [|split; [|split; [|split]]]].
  - intros Hfield.
    destruct (SaleProduct_init args) as [p|e] eqn:Hp; [exfalso | eexists; reflexivity].
    unfold SaleProduct_init in Hp. steps Hp.
    unfold SaleProduct_required in Hfield.
    repeat (apply elem_of_cons in Hfield as [-> | Hfield]; [missing_field|]).
    inversion Hfield.
  - intros Hfield.
    destruct (Reservation_init args) as [r|e] eqn:Hr; [exfalso | eexists; reflexivity].
    unfold Reservation_init in Hr. steps Hr.
    unfold Reservation_required in Hfield.
    repeat (apply elem_of_cons in Hfield as [-> | Hfield]; [missing_field|]).
    inversion Hfield.
  - intros Hfield.
    destruct (SaleEvent_init args) as [ev|e] eqn:Hev; [exfalso | eexists; reflexivity].
    unfold SaleEvent_init in Hev. steps Hev.
    unfold SaleEvent_required in Hfield.
    repeat (apply elem_of_cons in Hfield as [-> | Hfield]; [missing_field|]).
    inversion Hfield.
  - intros Hfield.
    destruct (User_init args) as [u|e] eqn:Hu; [exfalso | eexists; reflexivity].
    unfold User_init in Hu. steps Hu.
    unfold User_required in Hfield.
    repeat (apply elem_of_cons in Hfield as [-> | Hfield]; [missing_field|]).
    inversion Hfield.
  - intros ->. unfold Brand_init, required. rewrite Hnone. eexists; reflexivity.
  - intros ->. unfold Subscriber_init, required. rewrite Hnone. eexists; reflexivity.
Qed.

(** X24. The [age] of a [User] is either absent or between 0 and 120: a
    missing or null [age] is accepted and stays absent, the bounds applying
    to a given number only, and an integer outside 0..120 is rejected. *)
Theorem User_age_bounds (args : document) :
  (forall u n, User_init args = Return u -> User.age u = Some n -> 0 <= n <= 120)
  /\ (forall u,
        User_init args = Return u ->
        args !! "age" = None \/ args !! "age" = Some VNone ->
        User.age u = None)
  /\ (forall n,
        args !! "age" = Some (VInt n) -> n < 0 \/ 120 < n ->
        exists e, User_init args = Raise e).
Proof.
  assert (forall u, User_init args = Return u ->
            optional
              (validate_optional
                 (constrained (constrained validate_int (ge_int 0)) (le_int 120)))
              args "age" None = Return (User.age u)) as Hage.
  { intros u Hu. unfold User_init in Hu. steps Hu. injection Hu as <-. assumption. }
  split; [|split].
  - intros u n Hu Hn. apply Hage in Hu. rewrite Hn in Hu. unfold optional in Hu.
    destruct (args !! "age") as [v|]; [|discriminate].
    destruct v; try discriminate; cbn [validate_optional] in Hu;
      apply bind_Return in Hu as (m & Hm & [= ->]);
      apply constrained_Return in Hm as (k & Hk & Hm);
      apply constrained_Return in Hk as (j & Hj & Hk);
      apply ge_int_Return in Hk as [-> Hge]; apply le_int_Return in Hm as [-> Hle]; lia.
  - intros u Hu Habsent. apply Hage in Hu. unfold optional in Hu.
    destruct Habsent as [Ha | Ha]; rewrite Ha in Hu; simpl in Hu; congruence.
  - intros n Hn Hout.
    destruct (User_init args) as [u|e] eqn:Hinit; [exfalso | eexists; reflexivity].
    pose proof (Hage u eq_refl) as Hu. unfold optional in Hu. rewrite Hn in Hu.
    cbn [validate_optional] in Hu.
    apply bind_Return in Hu as (m & Hm & _).
    apply constrained_Return in Hm as (k & Hk & Hm).
    apply constrained_Return in Hk as (j & Hj & Hk).
    injection Hj as <-.
    apply ge_int_Return in Hk as [-> Hge]. apply le_int_Return in Hm as [-> Hle]. lia.
Qed.

End Required.

Section StoredRecords.
Context `{Runtime}.

(** X25. An event that [SaleEvent] accepts is one the listing can show:
    the dump of any [SaleEvent] record, stored under an identifier, has a
    card, and the card repeats the title, subtitle, banner, dates, status
    and categories of the record under the text of the identifier; the
    [brand_ids] are left out.  The stored event is upcoming exactly when its
    [end_at] is not before the current time. *)
Theorem SaleEvent_stored_card (now : datetime) (ev : SaleEvent.t) (d : database) :
  event_card now (stored_as (SaleEvent_model_dump ev) d)
  = Return (EventCard.Build (oid_str (next_id d)) (SaleEvent.title ev)
              (SaleEvent.subtitle ev) (SaleEvent.banner_url ev) (SaleEvent.start_at ev)
              (SaleEvent.end_at ev) (SaleEvent.status ev) (SaleEvent.categories ev))
  /\ upcoming now (stored_as (SaleEvent_model_dump ev) d) = (now <=? SaleEvent.end_at ev).
Proof.
  split; [|reflexivity].
  rewrite event_card_eq.
  change (get (stored_as (SaleEvent_model_dump ev) d) "subtitle")
    with (dump_optional_str (SaleEvent.subtitle ev)).
  change (get (stored_as (SaleEvent_model_dump ev) d) "banner_url")
    with (dump_optional_str (SaleEvent.banner_url ev)).
  change (get_default (stored_as (SaleEvent_model_dump ev) d) "categories" (VList []))
    with (dump_list_str (SaleEvent.categories ev)).
  rewrite !validate_optional_str_of_dump, validate_list_str_dump.
  reflexivity.
Qed.

(** X26. A product that [SaleProduct] accepts is one the listing can show:
    the dump of any [SaleProduct] record, stored under an identifier, has a
    card with the title, prices and stock of the record, the first of its
    images if it has any, and the text of the identifier; it is listed for
    its own event and for no other. *)
Theorem SaleProduct_stored_card (p : SaleProduct.t) (d : database) :
  product_card (stored_as (SaleProduct_model_dump p) d)
  = Return (ProductCard.Build (oid_str (next_id d)) (SaleProduct.title p)
              (SaleProduct.price_original p) (SaleProduct.price_sale p)
              (first_image (SaleProduct.images p)) (SaleProduct.stock p))
  /\ forall event_id,
       refers_to event_id (stored_as (SaleProduct_model_dump p) d) = true
       <-> event_id = SaleProduct.sale_event_id p.
Proof.
  split.
  - destruct p as [se b t de [|image images] po ps st sk at']; reflexivity.
  - intros event_id. rewrite refers_to_spec.
    change (stored_as (SaleProduct_model_dump p) d !! "sale_event_id")
      with (Some (VStr (SaleProduct.sale_event_id p))).
    split; congruence.
Qed.

(** [Reservation] on arguments that give every field. *)
Lemma Reservation_init_kwargs (sale_event_id product_id email quantity status : value) :
  Reservation_init
    (kwargs [("sale_event_id", sale_event_id); ("product_id", product_id);
             ("email", email); ("quantity", quantity); ("status", status)])
  = (se <- validate_str "sale_event_id" sale_event_id ;;
     pr <- validate_str "product_id" product_id ;;
     e <- validate_EmailStr "email" email ;;
     q <- constrained (constrained validate_int (ge_int 1)) (le_int 10) "quantity"
            quantity ;;
     st <- validate_str "status" status ;;
     Return (Reservation.Build se pr e q st)).
Proof. reflexivity. Qed.

(** X27. A [Reservation] whose address the validator returns as it is comes
    back unchanged from a dump and a new validation exactly when its
    quantity is between 1 and 10. *)
Theorem Reservation_round_trip (r : Reservation.t) :
  validate_email (Reservation.email r) = Some (Reservation.email r) ->
  Reservation_init (Reservation_model_dump r) = Return r
  <-> 1 <= Reservation.quantity r <= 10.
Proof.
  intros Hemail.
  unfold Reservation_model_dump. rewrite Reservation_init_kwargs.
  cbn [validate_str validate_EmailStr bind]. rewrite Hemail.
  cbn [of_lax bind]. unfold constrained. cbn [validate_int bind].
  unfold ge_int, le_int.
  destruct (Z.leb_spec 1 (Reservation.quantity r)); cbn [bind];
    [destruct (Z.leb_spec (Reservation.quantity r) 10); cbn [bind]|].
  - split; [lia | intros _; destruct r; reflexivity].
  - split; [discriminate | lia].
  - split; [discriminate | lia].
Qed.

End StoredRecords.

Lemma required_fields_witness :
  delete "title" (product_args PrimFloat.one PrimFloat.one 3) !! "title" = None
  /\ exists e,
       @SaleProduct_init plain_runtime (delete "title" (product_args PrimFloat.one PrimFloat.one 3))
       = Raise e.
Proof.
  split; [reflexivity|].
  destruct (@required_fields plain_runtime
              (delete "title" (product_args PrimFloat.one PrimFloat.one 3)) "title")
    as (Hproduct & _); [reflexivity|].
  apply Hproduct. apply list_elem_of_lookup. exists 1%nat. reflexivity.
Defined.

Lemma Reservation_round_trip_witness :
  @validate_email plain_runtime "a@b.com" = Some "a@b.com"
  /\ @Reservation_init plain_runtime
       (Reservation_model_dump (Reservation.Build "e1" "p1" "a@b.com" 2 "held"))
     = Return (Reservation.Build "e1" "p1" "a@b.com" 2 "held").
Proof.
  split; [reflexivity|].
  apply (@Reservation_round_trip plain_runtime
           (Reservation.Build "e1" "p1" "a@b.com" 2 "held")); [reflexivity|].
  simpl. lia.
Defined.
